(** * Bangalore house price prediction: the validation and vectorization contract

    A shallow embedding of [server/main.py] (the FastAPI service) and of the
    client-side checks of [frontend/app_ui.py], with the properties the
    specification states about them.

    Modelling conventions.
    - Python [int] is [Z].
    - Python [float] is modelled by the exact rationals [Q]: the service only
      compares floats with constants, divides one float by an integer and
      copies floats into a list, and [Q] gives these operations their exact
      values.  Rounding to binary64, infinities and NaN are outside the
      model; module [Binary64] checks with Rocq's binary64 specification
      that at the decision boundaries the rounded quotient falls on the same
      side of 350 as the exact one.  The one place where the size of an
      [int] changes what a float operation does, the [OverflowError] of
      converting an [int] beyond the binary64 range, is modelled.
    - Exceptions are explicit: a computation returns [Return v] or
      [Raise e].  The handlers run in a small monad that also threads the
      log of the arrays handed to [MODEL.predict], so that "the predictor is
      not invoked" is a statement about that log.
    - The dict literal of [make_feature_vector] is a [gmap string PyNum].
    - What FastAPI and pydantic do around the handlers (collecting the
      errors of all fields into a 422, running the [model_validator] only
      after the fields passed, turning [HTTPException] into its status code
      and any other escaping exception into a 500) is written out in
      [Pydantic] and [FastAPI]. *)

From Stdlib Require Import ZArith QArith Qround String Ascii List Bool Lia Lqa.
From Stdlib Require Import SpecFloat.
From stdpp Require Import gmap strings pretty.
Import ListNotations.

Local Open Scope string_scope.
Local Open Scope list_scope.
Local Open Scope Z_scope.

(** ** Python values, exceptions and the few builtins the code uses *)

Module Py.

(** One entry of a pydantic [ValidationError] (and of FastAPI's 422 body). *)
Record ErrorDetails := mkError {
  err_type : string;
  err_loc : list string;
  err_msg : string
}.

(** Instances of [Exception].  The classes the code raises or catches by
    name have their own constructor; [Exception cls msg] stands for an
    instance of any other subclass, given by its class name and its [str]. *)
Inductive exn :=
| KeyError (key : string)
| IndexError (msg : string)
| ZeroDivisionError (msg : string)
| OverflowError (msg : string)
| ValueError (msg : string)
| RuntimeError (msg : string)
| ValidationError (errors : list ErrorDetails)
| HTTPException (status_code : Z) (detail : string)
| Exception (cls : string) (msg : string).

Inductive result (A : Type) :=
| Return (a : A)
| Raise (e : exn).
Arguments Return {A} a.
Arguments Raise {A} e.

Definition bind {A B} (m : result A) (k : A -> result B) : result B :=
  match m with
  | Return a => k a
  | Raise e => Raise e
  end.

(** A number held in a dict next to numbers of the other type. *)
Inductive PyNum :=
| PyInt (n : Z)
| PyFloat (x : Q).

(** [float(v)], applied by the service to the fields of a validated
    request only, whose integers lie between 0 and 12. *)
Definition float (v : PyNum) : Q :=
  match v with
  | PyInt n => inject_Z n
  | PyFloat x => x
  end.

(** [x < y] and [x > y] on floats *)
Definition Qltb (x y : Q) : bool := negb (Qle_bool y x).
Definition Qgtb (x y : Q) : bool := Qltb y x.

(** The integers that convert to a float are those below
    [2^1024 - 2^970] in absolute value: from there on the nearest binary64
    would be [2^1024]. *)
Definition int_float_limit : Z := 2 ^ 1024 - 2 ^ 970.

(** [x / n] for a float [x] and an int [n]: [n] is converted first, which
    raises for an [n] out of range; then a zero divisor raises. *)
Definition truediv (x : Q) (n : Z) : result Q :=
  if int_float_limit <=? Z.abs n then
    Raise (OverflowError "int too large to convert to float")
  else if n =? 0 then Raise (ZeroDivisionError "float division by zero")
  else Return (x / inject_Z n)%Q.

(** [d[key]] *)
Definition getitem (d : gmap string PyNum) (key : string) : result PyNum :=
  match d !! key with
  | Some v => Return v
  | None => Raise (KeyError key)
  end.

(** [a[i]] on a list or array *)
Definition index {A} (a : list A) (i : nat) : result A :=
  match nth_error a i with
  | Some v => Return v
  | None => Raise (IndexError "index out of range")
  end.

(** [[f(name) for name in names]]: left to right, the first exception
    ends the comprehension. *)
Fixpoint comprehension {A B} (f : A -> result B) (names : list A) : result (list B) :=
  match names with
  | [] => Return []
  | name :: rest =>
      bind (f name) (fun v =>
      bind (comprehension f rest) (fun vs =>
      Return (v :: vs)))
  end.

(** [round(y, 2)] on exact rationals: the nearest multiple of 1/100, ties
    to the even one.  The interpreter returns the binary64 next to this
    decimal; the properties below use that both routes compute the price by
    the same function of the prediction, and none states its value. *)
Definition round2 (y : Q) : Q :=
  let s := (y * 100)%Q in
  let lo := Qfloor s in
  let r := (s - inject_Z lo)%Q in
  let n := if Qltb r (1 # 2) then lo
           else if Qltb (1 # 2) r then lo + 1
           else if Z.even lo then lo else lo + 1 in
  (inject_Z n / 100)%Q.

(** [repr(s)] of a [str] whose characters are ASCII: single quotes around
    it, or double quotes when it holds a single quote and no double one;
    the quote in use and the backslash are escaped, tab, newline and
    carriage return are written [\t], [\n], [\r], the other control
    characters in [\xhh] form.  A byte outside ASCII is copied, which is what
    the interpreter does for a printable character; see [ascii_only]. *)
Definition squote : ascii := "'"%char.
Definition dquote : ascii := ascii_of_nat 34.
Definition backslash : ascii := ascii_of_nat 92.

Definition hex_digit (n : N) : ascii :=
  (if n <? 10 then ascii_of_N (48 + n) else ascii_of_N (87 + n))%N.

Definition repr_char (quote c : ascii) : string :=
  let n := N_of_ascii c in
  if Ascii.eqb c quote || Ascii.eqb c backslash then
    String backslash (String c EmptyString)
  else if (n =? 9)%N then String backslash "t"
  else if (n =? 10)%N then String backslash "n"
  else if (n =? 13)%N then String backslash "r"
  else if (n <? 32)%N || (n =? 127)%N then
    String backslash
      (String "x" (String (hex_digit (n / 16)) (String (hex_digit (n mod 16)) EmptyString)))
  else String c EmptyString.

Fixpoint repr_chars (quote : ascii) (s : string) : string :=
  match s with
  | EmptyString => EmptyString
  | String c rest => String.append (repr_char quote c) (repr_chars quote rest)
  end.

Fixpoint contains (c : ascii) (s : string) : bool :=
  match s with
  | EmptyString => false
  | String c' rest => Ascii.eqb c c' || contains c rest
  end.

Definition repr (s : string) : string :=
  let quote := if contains squote s && negb (contains dquote s) then dquote else squote in
  String quote (String.append (repr_chars quote s) (String quote EmptyString)).

(** The strings on which [repr] is the interpreter's. *)
Fixpoint ascii_only (s : string) : bool :=
  match s with
  | EmptyString => true
  | String c rest => (N_of_ascii c <? 128)%N && ascii_only rest
  end.

(** [str(e)] as far as the service can show it: the argument of the
    exception; a [KeyError] shows the [repr] of its key; a pydantic
    [ValidationError] is shortened to its title line. *)
Definition str (e : exn) : string :=
  match e with
  | KeyError key => repr key
  | IndexError msg => msg
  | ZeroDivisionError msg => msg
  | OverflowError msg => msg
  | ValueError msg => msg
  | RuntimeError msg => msg
  | ValidationError errors => "validation error for PredictRequest"
  | HTTPException status_code detail =>
      String.append (pretty status_code) (String.append ": " detail)
  | Exception cls msg => msg
  end.

End Py.

(** ** pydantic: field constraints and the error list of a model *)

Module Pydantic.
Import Py.

(** [Field(ge=lo, le=hi)] on an [int] field. *)
Definition check_ge_le (loc : list string) (lo hi : Z) (v : Z) : list ErrorDetails :=
  if v <? lo then
    [mkError "greater_than_equal" loc
       (String.append "Input should be greater than or equal to " (pretty lo))]
  else if hi <? v then
    [mkError "less_than_equal" loc
       (String.append "Input should be less than or equal to " (pretty hi))]
  else [].

(** [Field(gt=bound)] on a [float] field; both bounds of the service are
    whole numbers. *)
Definition check_gt (loc : list string) (bound : Z) (v : Q) : list ErrorDetails :=
  if Qgtb v (inject_Z bound) then []
  else [mkError "greater_than" loc
          (String.append "Input should be greater than " (pretty bound))].

(** A [ValueError] raised by a [model_validator] becomes one error entry of
    the model itself. *)
Definition value_error (msg : string) : ErrorDetails :=
  mkError "value_error" [] (String.append "Value error, " msg).

(** FastAPI reports the errors of a request part under that part's name. *)
Definition under (part : string) (e : ErrorDetails) : ErrorDetails :=
  mkError (err_type e) (part :: err_loc e) (err_msg e).

End Pydantic.

(** ** FastAPI: what a route answers *)

Module FastAPI.
Import Py.

Inductive Response (A : Type) :=
| Ok200 (content : A)
| Unprocessable422 (detail : list ErrorDetails)
| HTTPError (status_code : Z) (detail : string)
| InternalServerError500.
Arguments Ok200 {A} content.
Arguments Unprocessable422 {A} detail.
Arguments HTTPError {A} status_code detail.
Arguments InternalServerError500 {A}.

Definition status {A} (r : Response A) : Z :=
  match r with
  | Ok200 _ => 200
  | Unprocessable422 _ => 422
  | HTTPError status_code _ => status_code
  | InternalServerError500 => 500
  end.

(** The outcome of a path operation function: its return value is the
    body of a 200, an [HTTPException] is answered with its own status code
    and detail, every other exception with a 500. *)
Definition respond {A} (outcome : result A) : Response A :=
  match outcome with
  | Return content => Ok200 content
  | Raise (HTTPException status_code detail) => HTTPError status_code detail
  | Raise _ => InternalServerError500
  end.

(** 4xx *)
Definition client_error {A} (r : Response A) : bool :=
  (400 <=? status r) && (status r <? 500).

End FastAPI.

(** ** server/main.py *)

Module Server.
Import Py Pydantic FastAPI.

(** The predictor is opaque: a class name and a [predict] method from a
    two-dimensional array to an array of predictions, which may raise. *)
Record Model := {
  type_name : string;
  model_predict : list (list Q) -> result (list Q)
}.

(** The unpickled artifact: a dict that may or may not hold each key. *)
Record Payload := {
  payload_model : option Model;
  payload_feature_order : option (list string)
}.

(** Process-wide state set by the module's top level. *)
Record App := {
  MODEL : Model;
  FEATURE_ORDER : list string
}.

Definition default_feature_order : list string :=
  ["bath"; "balcony"; "total_sqft_int"; "bhk"; "price_per_sqft"].

(** The top level of the module: [MODEL_PATH.exists()], [pickle.load],
    [payload["model"]] and [payload.get("feature_order", [...])].  [None]
    is the absent file. *)
Definition startup (file : option Payload) : result App :=
  match file with
  | None => Raise (RuntimeError "Model file not found")
  | Some payload =>
      match payload_model payload with
      | None => Raise (KeyError "model")
      | Some m =>
          Return {| MODEL := m;
                    FEATURE_ORDER :=
                      match payload_feature_order payload with
                      | Some names => names
                      | None => default_feature_order
                      end |}
      end
  end.

Record PredictRequest := {
  bath : Z;
  balcony : Z;
  total_sqft_int : Q;
  bhk : Z;
  price_per_sqft : Q
}.

(** The [Field] constraints, in the order the fields are declared. *)
Definition field_errors (r : PredictRequest) : list ErrorDetails :=
  check_ge_le ["bath"] 1 12 (bath r) ++
  check_ge_le ["balcony"] 0 6 (balcony r) ++
  check_gt ["total_sqft_int"] 200 (total_sqft_int r) ++
  check_ge_le ["bhk"] 1 12 (bhk r) ++
  check_gt ["price_per_sqft"] 0 (price_per_sqft r).

(** [PredictRequest.logical_rules] *)
Definition logical_rules (self : PredictRequest) : result PredictRequest :=
  if bath self >? bhk self + 2 then
    Raise (ValueError "Invalid: bath should typically be ≤ (bhk + 2).")
  else
    bind (truediv (total_sqft_int self) (bhk self)) (fun q =>
    if Qltb q 350 then
      Raise (ValueError "Invalid: sqft per BHK must be ≥ 350 (data cleaning rule).")
    else Return self).

(** [PredictRequest(bath=..., ...)]: the field constraints first, all
    violations collected; the [mode="after"] validator only when there are
    none.  pydantic turns the validator's [ValueError] into a
    [ValidationError]; any other exception passes through. *)
Definition PredictRequest_init (bath balcony : Z) (total_sqft_int : Q) (bhk : Z)
    (price_per_sqft : Q) : result PredictRequest :=
  let self := Build_PredictRequest bath balcony total_sqft_int bhk price_per_sqft in
  match field_errors self with
  | [] =>
      match logical_rules self with
      | Raise (ValueError msg) => Raise (ValidationError [value_error msg])
      | r => r
      end
  | errors => Raise (ValidationError errors)
  end.

Record PredictResponse := {
  predicted_price_lakhs : Q;
  feature_order : list string;
  features_used : list Q
}.

Definition feature_map (req : PredictRequest) : gmap string PyNum :=
  {[ "bath" := PyInt (bath req);
     "balcony" := PyInt (balcony req);
     "total_sqft_int" := PyFloat (total_sqft_int req);
     "bhk" := PyInt (bhk req);
     "price_per_sqft" := PyFloat (price_per_sqft req) ]}.

(** [make_feature_vector]: a 1 x n array. *)
Definition make_feature_vector (app : App) (req : PredictRequest) : result (list (list Q)) :=
  bind (comprehension
          (fun name => bind (getitem (feature_map req) name) (fun v => Return (float v)))
          (FEATURE_ORDER app)) (fun x =>
  Return [x]).

(** The element [float(feature_map[name])] of that comprehension. *)
Definition column (req : PredictRequest) (name : string) : result Q :=
  bind (getitem (feature_map req) name) (fun v => Return (float v)).

(** *** Handlers

    A handler is run against the log of the arrays passed to
    [MODEL.predict] so far and returns its outcome with the extended log. *)
Definition Calls := list (list (list Q)).
Definition Handler (A : Type) := Calls -> result A * Calls.

Definition pure {A} (r : result A) : Handler A := fun log => (r, log).

Definition andThen {A B} (m : Handler A) (k : A -> Handler B) : Handler B :=
  fun log =>
    match m log with
    | (Return a, log') => k a log'
    | (Raise e, log') => (Raise e, log')
    end.

(** [try: body / except Exception as e: handler(e)] *)
Definition try_except {A} (body : Handler A) (handler : exn -> Handler A) : Handler A :=
  fun log =>
    match body log with
    | (Return a, log') => (Return a, log')
    | (Raise e, log') => handler e log'
    end.

(** [MODEL.predict(x)] *)
Definition call_predict (app : App) (x : list (list Q)) : Handler (list Q) :=
  fun log => (model_predict (MODEL app) x, log ++ [x]).

(** [predict], the handler of [POST /predict] *)
Definition predict (app : App) (req : PredictRequest) : Handler PredictResponse :=
  try_except
    (andThen (pure (make_feature_vector app req)) (fun x =>
     andThen (call_predict app x) (fun ys =>
     andThen (pure (index ys 0)) (fun y_pred =>
     andThen (pure (index x 0)) (fun row =>
     pure (Return {| predicted_price_lakhs := round2 y_pred;
                     feature_order := FEATURE_ORDER app;
                     features_used := row |}))))))
    (fun e => pure (Raise (HTTPException 400
                             (String.append "Prediction failed: " (str e))))).

(** What the [except] clause of [predict] raises for a caught [e]. *)
Definition failed (e : exn) : exn :=
  HTTPException 400 (String.append "Prediction failed: " (str e)).

(** [predict_via_query], the handler of [GET /predict/{bhk}] *)
Definition predict_via_query (app : App) (bhk bath balcony : Z)
    (total_sqft_int price_per_sqft : Q) : Handler PredictResponse :=
  andThen (pure (PredictRequest_init bath balcony total_sqft_int bhk price_per_sqft))
    (fun req => predict app req).

(** *** Routes

    [POST /predict]: FastAPI builds the [PredictRequest] from the body; a
    [ValidationError] there is a 422 whose entries are located under
    ["body"], and the handler is not called. *)
Definition post_predict (app : App) (bath balcony : Z) (total_sqft_int : Q) (bhk : Z)
    (price_per_sqft : Q) (log : Calls) : Response PredictResponse * Calls :=
  match PredictRequest_init bath balcony total_sqft_int bhk price_per_sqft with
  | Return req => let (outcome, log') := predict app req log in (respond outcome, log')
  | Raise (ValidationError errors) => (Unprocessable422 (map (under "body") errors), log)
  | Raise _ => (InternalServerError500, log)
  end.

(** The query string of [GET /predict/{bhk}]: each parameter may be absent. *)
Record QueryParams := {
  q_bath : option Z;
  q_balcony : option Z;
  q_total_sqft_int : option Q;
  q_price_per_sqft : option Q
}.

Definition no_query : QueryParams := Build_QueryParams None None None None.

(** [GET /predict/{bhk}]: FastAPI checks the [Path] and [Query] constraints
    of the signature, the path first, and answers 422 with all violations;
    otherwise it calls [predict_via_query] with the defaults filled in. *)
Definition get_predict (app : App) (bhk : Z) (query : QueryParams) (log : Calls)
    : Response PredictResponse * Calls :=
  let bath := default 2 (q_bath query) in
  let balcony := default 1 (q_balcony query) in
  let total_sqft_int := default 1000%Q (q_total_sqft_int query) in
  let price_per_sqft := default 6000%Q (q_price_per_sqft query) in
  match check_ge_le ["path"; "bhk"] 1 12 bhk ++
        check_ge_le ["query"; "bath"] 1 12 bath ++
        check_ge_le ["query"; "balcony"] 0 6 balcony ++
        check_gt ["query"; "total_sqft_int"] 200 total_sqft_int ++
        check_gt ["query"; "price_per_sqft"] 0 price_per_sqft with
  | [] =>
      let (outcome, log') :=
        predict_via_query app bhk bath balcony total_sqft_int price_per_sqft log in
      (respond outcome, log')
  | errors => (Unprocessable422 errors, log)
  end.

(** *** The read-only routes *)

Record Health := {
  health_status : string;
  health_message : string;
  model_features : list string
}.

(** [root], the handler of [GET /] *)
Definition root (app : App) : Health :=
  {| health_status := "ok";
     health_message := "Bangalore Price API is running";
     model_features := FEATURE_ORDER app |}.

Record ModelInfo := {
  info_feature_order : list string;
  model_type : string
}.

(** [model_info], the handler of [GET /model/info] *)
Definition model_info (app : App) : ModelInfo :=
  {| info_feature_order := FEATURE_ORDER app;
     model_type := type_name (MODEL app) |}.

(** Neither takes parameters or raises: the routes answer what they return. *)
Definition get_root (app : App) : Response Health := respond (Return (root app)).

Definition get_model_info (app : App) : Response ModelInfo :=
  respond (Return (model_info app)).

End Server.

(** ** Sample artifacts

    A predictor of the kind the service is deployed with: a linear model
    that refuses an array whose rows do not have one entry per coefficient. *)

Module Sample.
Import Py Server.

Fixpoint dot (coef row : list Q) : Q :=
  match coef, row with
  | c :: coef', v :: row' => (c * v + dot coef' row')%Q
  | _, _ => 0%Q
  end.

Definition linear_regression (coef : list Q) (intercept : Q) : Model :=
  {| type_name := "LinearRegression";
     model_predict := fun x =>
       comprehension
         (fun row =>
            if (length row =? length coef)%nat
            then Return (intercept + dot coef row)%Q
            else Raise (ValueError "X does not have the number of features LinearRegression is expecting"))
         x |}.

Definition model5 : Model :=
  linear_regression [(5 # 2); (3 # 2); (1 # 20); (2 # 1); (1 # 200)]%Q (-(10 # 1))%Q.

(** An artifact with its column order, one without, one whose order names
    a column the request does not have, and one whose order is shorter than
    the model's coefficient vector. *)
Definition artifact : Payload :=
  {| payload_model := Some model5;
     payload_feature_order :=
       Some ["bhk"; "bath"; "balcony"; "total_sqft_int"; "price_per_sqft"] |}.

Definition artifact_without_order : Payload :=
  {| payload_model := Some model5; payload_feature_order := None |}.

Definition artifact_unknown_column : Payload :=
  {| payload_model := Some model5;
     payload_feature_order := Some ["bath"; "area_type"] |}.

Definition artifact_short_order : Payload :=
  {| payload_model := Some model5;
     payload_feature_order := Some ["bath"; "bhk"] |}.

(** The state each of them starts the server with. *)
Definition app : App :=
  {| MODEL := model5;
     FEATURE_ORDER := ["bhk"; "bath"; "balcony"; "total_sqft_int"; "price_per_sqft"] |}.

Definition app_without_order : App :=
  {| MODEL := model5; FEATURE_ORDER := default_feature_order |}.

Definition app_unknown_column : App :=
  {| MODEL := model5; FEATURE_ORDER := ["bath"; "area_type"] |}.

Definition app_short_order : App :=
  {| MODEL := model5; FEATURE_ORDER := ["bath"; "bhk"] |}.

End Sample.

(** ** frontend/app_ui.py *)

Module Frontend.
Import Py.

(** [issues.append(msg)] when [cond] holds *)
Definition append_if (cond : bool) (msg : string) (issues : list string) : list string :=
  if cond then issues ++ [msg] else issues.

(** [validate_inputs] *)
Definition validate_inputs (bhk bath balcony : Z) (sqft pps : Q) : result (list string) :=
  let issues := [] in
  let issues := append_if ((bhk <? 1) || (bhk >? 12)) "BHK must be between 1 and 12." issues in
  let issues := append_if ((bath <? 1) || (bath >? 12)) "Bathrooms must be between 1 and 12." issues in
  let issues := append_if ((balcony <? 0) || (balcony >? 6)) "Balconies must be between 0 and 6." issues in
  let issues := append_if (Qle_bool sqft 200) "Total sqft must be > 200." issues in
  let issues := append_if (Qle_bool pps 0) "Price per sqft must be > 0." issues in
  bind (if bhk >=? 1
        then bind (truediv sqft bhk) (fun q => Return (Qltb q 350))
        else Return false) (fun too_small =>
  let issues := append_if too_small "Sqft per BHK should be ≥ 350 (data cleaning rule)." issues in
  let issues := append_if (bath >? bhk + 2) "Bathrooms should typically be ≤ (BHK + 2)." issues in
  Return issues).

(** The bounds of the five [st.number_input] widgets: what the form can
    hand to the rest of the script. *)
Definition form_allows (bhk bath balcony : Z) (sqft pps : Q) : bool :=
  (1 <=? bhk) && (bhk <=? 12) && (1 <=? bath) && (bath <=? 12) &&
  (0 <=? balcony) && (balcony <=? 6) && Qle_bool 250 sqft && Qle_bool 1 pps.

(** The backend behind [API_URL]: a running server, or none that answers,
    in which case [requests] raises a [RequestException]. *)
Definition Backend := option Server.App.

Definition RequestException : exn :=
  Exception "ConnectionError" "Failed to establish a new connection".

(** [predict_post]: the five values travel in the JSON body under the
    server's field names ([int] and [float] leave values of the form
    unchanged). *)
Definition predict_post (backend : Backend) (bhk bath balcony : Z) (sqft pps : Q)
    (log : Server.Calls)
    : result (FastAPI.Response Server.PredictResponse) * Server.Calls :=
  match backend with
  | Some app =>
      let (r, log') := Server.post_predict app bath balcony sqft bhk pps log in
      (Return r, log')
  | None => (Raise RequestException, log)
  end.

(** [predict_get]: [bhk] travels in the path, the other four in the query
    string, all four always present. *)
Definition predict_get (backend : Backend) (bhk bath balcony : Z) (sqft pps : Q)
    (log : Server.Calls)
    : result (FastAPI.Response Server.PredictResponse) * Server.Calls :=
  match backend with
  | Some app =>
      let (r, log') :=
        Server.get_predict app bhk
          (Server.Build_QueryParams (Some bath) (Some balcony) (Some sqft) (Some pps))
          log in
      (Return r, log')
  | None => (Raise RequestException, log)
  end.

(** What the script draws from the validation hints to the end of the
    two buttons, each widget with the values it is given. *)
Inductive Widget :=
| st_warning (text : string)
| st_write (text : string)
| st_success (predicted_price_lakhs : Q)
| st_progress (value : Z)
| st_json (data : Server.PredictResponse)
| st_caption (text : string)
| st_bar_chart (sqft predicted_price_lakhs : Q)
| st_error_api (status_code : Z) (response : FastAPI.Response Server.PredictResponse)
| st_error_connection (e : exn).

(** How a run of the script ends: through, at [st.stop()], or with an
    exception nobody catches. *)
Inductive Run :=
| Rendered (widgets : list Widget)
| Stopped (widgets : list Widget)
| Crashed (e : exn).

(** The validation hints: a warning and one bullet per issue, nothing
    without issues. *)
Definition hints (issues : list string) : list Widget :=
  match issues with
  | [] => []
  | _ :: _ =>
      st_warning "Please check these before predicting:" ::
      map (fun i => st_write (String.append "• " i)) issues
  end.

(** The body of the POST button when clicked: [st.stop()] with issues;
    otherwise the call, on status 200 the price with progress bar, details,
    caption and chart, on another status the API error, on a
    [RequestException] the connection error. *)
Definition post_button (backend : Backend) (issues : list string)
    (bhk bath balcony : Z) (sqft pps : Q) (log : Server.Calls) : Run * Server.Calls :=
  match issues with
  | _ :: _ => (Stopped (hints issues), log)
  | [] =>
      match predict_post backend bhk bath balcony sqft pps log with
      | (Return r, log') =>
          if FastAPI.status r =? 200 then
            match r with
            | FastAPI.Ok200 data =>
                (Rendered [st_success (Server.predicted_price_lakhs data);
                           st_progress 100;
                           st_json data;
                           st_caption "Quick glance:";
                           st_bar_chart sqft (Server.predicted_price_lakhs data)],
                 log')
            | _ => (Crashed (KeyError "predicted_price_lakhs"), log')
            end
          else (Rendered [st_error_api (FastAPI.status r) r], log')
      | (Raise e, log') => (Rendered [st_error_connection e], log')
      end
  end.

(** The body of the GET button when clicked: the same, with the price and
    the details only. *)
Definition get_button (backend : Backend) (issues : list string)
    (bhk bath balcony : Z) (sqft pps : Q) (log : Server.Calls) : Run * Server.Calls :=
  match issues with
  | _ :: _ => (Stopped (hints issues), log)
  | [] =>
      match predict_get backend bhk bath balcony sqft pps log with
      | (Return r, log') =>
          if FastAPI.status r =? 200 then
            match r with
            | FastAPI.Ok200 data =>
                (Rendered [st_success (Server.predicted_price_lakhs data);
                           st_json data],
                 log')
            | _ => (Crashed (KeyError "predicted_price_lakhs"), log')
            end
          else (Rendered [st_error_api (FastAPI.status r) r], log')
      | (Raise e, log') => (Rendered [st_error_connection e], log')
      end
  end.

(** One run of the script with a click on the POST button, and one with a
    click on the GET button: the issues are computed from the form values
    before the buttons are looked at. *)
Definition click_post (backend : Backend) (bhk bath balcony : Z) (sqft pps : Q)
    (log : Server.Calls) : Run * Server.Calls :=
  match validate_inputs bhk bath balcony sqft pps with
  | Return issues => post_button backend issues bhk bath balcony sqft pps log
  | Raise e => (Crashed e, log)
  end.

Definition click_get (backend : Backend) (bhk bath balcony : Z) (sqft pps : Q)
    (log : Server.Calls) : Run * Server.Calls :=
  match validate_inputs bhk bath balcony sqft pps with
  | Return issues => get_button backend issues bhk bath balcony sqft pps log
  | Raise e => (Crashed e, log)
  end.

(** The banner of the health check at the top of the page. *)
Inductive Banner :=
| Connected
| ReachableBut (status_code : Z)
| Unreachable.

Definition health_check (backend : Backend) : Banner :=
  match backend with
  | Some app =>
      let ping := Server.get_root app in
      if FastAPI.status ping <? 400 then Connected
      else ReachableBut (FastAPI.status ping)
  | None => Unreachable
  end.

End Frontend.

(** ** binary64 at the decision boundaries

    The quotient the service compares with 350 is a binary64 division.
    [SpecFloat] is Rocq's executable specification of IEEE 754 arithmetic;
    at precision 53 and maximal exponent 1024 it is binary64. *)

Module Binary64.

Definition prec : Z := 53.
Definition emax : Z := 1024.

(** The float of a (small) integer. *)
Definition of_Z (n : Z) : spec_float := binary_normalize prec emax n 0 false.

(** The largest float below [x]. *)
Definition before (x : spec_float) : spec_float := SFpred prec emax x.

(** [(total_sqft_int / bhk) < 350] as the interpreter computes it. *)
Definition below_350 (total_sqft_int : spec_float) (bhk : Z) : bool :=
  SFltb (SFdiv prec emax total_sqft_int (of_Z bhk)) (of_Z 350).

Definition bhk_range : list Z := [1; 2; 3; 4; 5; 6; 7; 8; 9; 10; 11; 12].

(** For each admissible [bhk]: the area [350 * bhk] is not below the
    threshold, the largest float under it is, and the default area
    [1000.0] is below it exactly from [bhk = 3] on. *)
Definition boundary_accepted : bool :=
  forallb (fun bhk => negb (below_350 (of_Z (350 * bhk)) bhk)) bhk_range.

Definition just_below_rejected : bool :=
  forallb (fun bhk => below_350 (before (of_Z (350 * bhk))) bhk) bhk_range.

Definition default_area_rejected_from_3 : bool :=
  forallb (fun bhk => Bool.eqb (below_350 (of_Z 1000) bhk) (3 <=? bhk)) bhk_range.

(** Whether the float of an integer is infinite, that is, whether the
    conversion overflows. *)
Definition overflows (n : Z) : bool :=
  match of_Z n with
  | S754_infinity _ => true
  | _ => false
  end.

End Binary64.

(** * Properties *)

Import Py Pydantic FastAPI Server Frontend.

(** ** Comparisons and constraints *)

Lemma Qltb_lt (x y : Q) : Qltb x y = true <-> (x < y)%Q.
Proof.
  unfold Qltb. rewrite negb_true_iff. split.
  - intros H. apply Qnot_le_lt. intros Hle. apply Qle_bool_iff in Hle. congruence.
  - intros H. destruct (Qle_bool y x) eqn:E; [|reflexivity].
    apply Qle_bool_iff in E. exfalso. exact (Qlt_not_le _ _ H E).
Qed.

Lemma Qltb_ge (x y : Q) : Qltb x y = false <-> (y <= x)%Q.
Proof.
  unfold Qltb. rewrite negb_false_iff. apply Qle_bool_iff.
Qed.

Lemma check_ge_le_nil loc lo hi v : check_ge_le loc lo hi v = [] <-> lo <= v <= hi.
Proof.
  unfold check_ge_le.
  destruct (Z.ltb_spec v lo); [split; [discriminate | lia] |].
  destruct (Z.ltb_spec hi v); [split; [discriminate | lia] |].
  split; [lia | reflexivity].
Qed.

Lemma check_gt_nil loc bound v : check_gt loc bound v = [] <-> (inject_Z bound < v)%Q.
Proof.
  unfold check_gt, Qgtb.
  destruct (Qltb (inject_Z bound) v) eqn:E.
  - apply Qltb_lt in E. tauto.
  - split; [discriminate |]. intros H. apply Qltb_lt in H. congruence.
Qed.

Lemma field_errors_nil r :
  field_errors r = [] <->
  1 <= bath r <= 12 /\ 0 <= balcony r <= 6 /\ (200 < total_sqft_int r)%Q /\
  1 <= bhk r <= 12 /\ (0 < price_per_sqft r)%Q.
Proof.
  unfold field_errors.
  rewrite !app_nil, !check_ge_le_nil, !check_gt_nil. reflexivity.
Qed.

Lemma int_float_limit_above : 12 < int_float_limit.
Proof. reflexivity. Qed.

(** The division returns for a divisor that converts and is not zero. *)
Lemma truediv_Return x n :
  n <> 0 -> Z.abs n < int_float_limit -> truediv x n = Return (x / inject_Z n)%Q.
Proof.
  intros Hnz Hlim. unfold truediv.
  destruct (Z.leb_spec int_float_limit (Z.abs n)); [lia |].
  destruct (Z.eqb_spec n 0); [contradiction | reflexivity].
Qed.

Lemma logical_rules_Return self r : logical_rules self = Return r -> r = self.
Proof.
  unfold logical_rules. intros H.
  destruct (_ >? _); [discriminate |].
  destruct (truediv _ _); simpl in H; [|discriminate].
  destruct (Qltb _ _); [discriminate |].
  injection H as <-. reflexivity.
Qed.

(** A request object exists only when its fields passed their constraints
    and the validator returned. *)
Lemma PredictRequest_init_Return bath balcony total bhk pps req :
  PredictRequest_init bath balcony total bhk pps = Return req ->
  req = Build_PredictRequest bath balcony total bhk pps /\
  field_errors req = [] /\ logical_rules req = Return req.
Proof.
  unfold PredictRequest_init. intros H.
  destruct (field_errors _) eqn:Ef; [|discriminate].
  destruct (logical_rules _) as [r|e] eqn:El.
  - injection H as <-. pose proof (logical_rules_Return _ _ El) as ->. auto.
  - destruct e; discriminate.
Qed.

(** The validator on a request whose [bhk] is not zero and converts to a
    float: which of its three exits is taken. *)
Lemma logical_rules_cases self :
  bhk self <> 0 -> Z.abs (bhk self) < int_float_limit ->
  (bhk self + 2 < bath self /\
   logical_rules self =
     Raise (ValueError "Invalid: bath should typically be ≤ (bhk + 2).")) \/
  (bath self <= bhk self + 2 /\
   (total_sqft_int self / inject_Z (bhk self) < 350)%Q /\
   logical_rules self =
     Raise (ValueError "Invalid: sqft per BHK must be ≥ 350 (data cleaning rule).")) \/
  (bath self <= bhk self + 2 /\
   (350 <= total_sqft_int self / inject_Z (bhk self))%Q /\
   logical_rules self = Return self).
Proof.
  intros Hbhk Hlim. unfold logical_rules.
  destruct (Z.gtb_spec (bath self) (bhk self + 2)) as [Hb|Hb]; [left; auto |].
  rewrite (truediv_Return _ _ Hbhk Hlim). simpl.
  destruct (Qltb _ 350) eqn:Eq.
  - right; left. apply Qltb_lt in Eq. auto.
  - right; right. apply Qltb_ge in Eq. auto.
Qed.

(** The constructor either returns the request or raises a
    [ValidationError] with at least one entry, nothing else. *)
Lemma PredictRequest_init_outcome bath balcony total bhk pps :
  let self := Build_PredictRequest bath balcony total bhk pps in
  (field_errors self = [] /\ logical_rules self = Return self /\
   PredictRequest_init bath balcony total bhk pps = Return self) \/
  (field_errors self = [] /\
   exists msg, logical_rules self = Raise (ValueError msg) /\
     PredictRequest_init bath balcony total bhk pps =
       Raise (ValidationError [value_error msg])) \/
  (field_errors self <> [] /\
   PredictRequest_init bath balcony total bhk pps =
     Raise (ValidationError (field_errors self))).
Proof.
  intros self. unfold PredictRequest_init. fold self.
  destruct (field_errors self) as [|e errors] eqn:Ef.
  - assert (Hbhk : Server.bhk self <> 0 /\ Z.abs (Server.bhk self) < int_float_limit).
    { apply field_errors_nil in Ef. pose proof int_float_limit_above. lia. }
    destruct (logical_rules_cases self (proj1 Hbhk) (proj2 Hbhk))
      as [[_ ->]|[(_ & _ & ->)|(_ & _ & ->)]];
      eauto 6.
  - right; right. split; [discriminate | reflexivity].
Qed.

(** The constraints of the [Path] and [Query] parameters are those of the
    model's fields. *)
Lemma path_query_checks_nil bath balcony total bhk pps :
  check_ge_le ["path"; "bhk"] 1 12 bhk ++
  check_ge_le ["query"; "bath"] 1 12 bath ++
  check_ge_le ["query"; "balcony"] 0 6 balcony ++
  check_gt ["query"; "total_sqft_int"] 200 total ++
  check_gt ["query"; "price_per_sqft"] 0 pps = [] <->
  field_errors (Build_PredictRequest bath balcony total bhk pps) = [].
Proof.
  rewrite field_errors_nil. simpl.
  rewrite !app_nil, !check_ge_le_nil, !check_gt_nil. tauto.
Qed.

(** ** The two entry points *)

(** With the defaults filled in, a request that validates is answered by
    [GET /predict/{bhk}] exactly as by [POST /predict]. *)
Lemma get_predict_delegates app bhk query log req :
  let bath := default 2 (q_bath query) in
  let balcony := default 1 (q_balcony query) in
  let total := default 1000%Q (q_total_sqft_int query) in
  let pps := default 6000%Q (q_price_per_sqft query) in
  PredictRequest_init bath balcony total bhk pps = Return req ->
  get_predict app bhk query log = post_predict app bath balcony total bhk pps log.
Proof.
  intros bath balcony total pps Hreq.
  destruct (PredictRequest_init_Return _ _ _ _ _ _ Hreq) as (-> & Hfields & _).
  apply path_query_checks_nil in Hfields.
  unfold get_predict, post_predict.
  fold bath balcony total pps. rewrite Hfields.
  unfold predict_via_query, andThen, pure at 1. rewrite Hreq. reflexivity.
Qed.

(** C1. For field values that pass validation, [GET /predict/{bhk}] with
    the four other values in the query string and [POST /predict] with the
    five values in the body give the same response (the same
    [predicted_price_lakhs], [feature_order] and [features_used], or the
    same error) and hand the same array to the predictor: the path/query
    handler builds the request and calls [predict]. *)
Theorem C1_entry_points_agree app bath balcony total bhk pps req log :
  PredictRequest_init bath balcony total bhk pps = Return req ->
  get_predict app bhk
    (Build_QueryParams (Some bath) (Some balcony) (Some total) (Some pps)) log
  = post_predict app bath balcony total bhk pps log /\
  predict_via_query app bhk bath balcony total pps log = predict app req log.
Proof.
  intros Hreq. split.
  - exact (get_predict_delegates app bhk
             (Build_QueryParams (Some bath) (Some balcony) (Some total) (Some pps))
             log req Hreq).
  - unfold predict_via_query, andThen, pure. rewrite Hreq. reflexivity.
Qed.

Lemma C1_entry_points_agree_witness :
  get_predict Sample.app 2
    (Build_QueryParams (Some 2) (Some 1) (Some 1000%Q) (Some 6000%Q)) []
  = post_predict Sample.app 2 1 1000 2 6000 [] /\
  predict_via_query Sample.app 2 2 1 1000 6000 []
  = predict Sample.app (Build_PredictRequest 2 1 1000 2 6000) [].
Proof.
  apply (C1_entry_points_agree Sample.app 2 1 1000%Q 2 6000%Q
           (Build_PredictRequest 2 1 1000 2 6000) []).
  reflexivity.
Defined.

(** ** Rejected input *)

(** Validation accepts exactly the inputs that satisfy the five range
    constraints and the two cross-field rules. *)
Lemma PredictRequest_init_accepts_iff bath balcony total bhk pps :
  PredictRequest_init bath balcony total bhk pps =
    Return (Build_PredictRequest bath balcony total bhk pps) <->
  1 <= bath <= 12 /\ 0 <= balcony <= 6 /\ (200 < total)%Q /\
  1 <= bhk <= 12 /\ (0 < pps)%Q /\
  bath <= bhk + 2 /\ (350 <= total / inject_Z bhk)%Q.
Proof.
  pose proof (field_errors_nil (Build_PredictRequest bath balcony total bhk pps)) as Hf.
  pose proof int_float_limit_above as Hlimit.
  simpl in Hf. split.
  - intros H. destruct (PredictRequest_init_Return _ _ _ _ _ _ H) as (_ & Hfields & Hrules).
    apply Hf in Hfields.
    destruct (logical_rules_cases (Build_PredictRequest bath balcony total bhk pps))
      as [[_ E]|[(_ & _ & E)|(Hb & Ha & _)]]; simpl in *; try lia; try congruence.
    tauto.
  - intros (H1 & H2 & H3 & H4 & H5 & Hb & Ha).
    destruct (PredictRequest_init_outcome bath balcony total bhk pps)
      as [(_ & _ & E)|[(_ & msg & Hmsg & _)|(Hne & _)]]; [exact E | |].
    + exfalso.
      destruct (logical_rules_cases (Build_PredictRequest bath balcony total bhk pps))
        as [[Hb' _]|[(_ & Ha' & _)|(_ & _ & E)]]; simpl in *; try lia.
      * exact (Qlt_not_le _ _ Ha' Ha).
      * congruence.
    + exfalso. apply Hne, Hf. tauto.
Qed.

(** An input that validation does not accept is never answered with a 200
    and never reaches the predictor, on either route: [POST /predict]
    answers 422; [GET /predict/{bhk}] answers 422 when a range constraint
    fails and 500 when only a cross-field rule fails, because the
    [ValidationError] is then raised inside the path operation function. *)
Lemma rejected_input_never_predicts app bath balcony total bhk pps log :
  PredictRequest_init bath balcony total bhk pps <>
    Return (Build_PredictRequest bath balcony total bhk pps) ->
  let post := post_predict app bath balcony total bhk pps log in
  let get := get_predict app bhk
               (Build_QueryParams (Some bath) (Some balcony) (Some total) (Some pps)) log in
  status (fst post) = 422 /\ snd post = log /\
  (status (fst get) = 422 \/ status (fst get) = 500) /\ snd get = log.
Proof.
  intros Hrej post get. subst post get.
  pose proof (path_query_checks_nil bath balcony total bhk pps) as Hpq.
  unfold post_predict, get_predict. simpl default.
  destruct (PredictRequest_init_outcome bath balcony total bhk pps)
    as [(_ & _ & E)|[(Hf & msg & _ & E)|(Hne & E)]]; [contradiction | |].
  - apply Hpq in Hf. rewrite Hf.
    unfold predict_via_query, andThen, pure. rewrite E. simpl. auto.
  - rewrite E.
    destruct (_ ++ _) as [|e errors] eqn:El; [exfalso; apply Hne, Hpq; reflexivity |].
    simpl. auto.
Qed.

(** C2. Every entry point is to answer a violated constraint with a 400
    or 422 and leave the predictor alone.  The code departs from this: at
    [GET /predict/2?bath=5] (bath = 5 > bhk + 2 = 4, the other values at
    their defaults) the range constraints of the path and query hold, the
    [ValidationError] of [logical_rules] is raised by [PredictRequest(...)]
    inside [predict_via_query], and the answer is a 500, where
    [POST /predict] answers the same five values with a 422.  The predictor
    is called by neither. *)
Theorem C2_get_cross_field_violation_is_500 app log :
  get_predict app 2 (Build_QueryParams (Some 5) None None None) log
    = (InternalServerError500, log) /\
  client_error (fst (get_predict app 2 (Build_QueryParams (Some 5) None None None) log))
    = false /\
  post_predict app 5 1 1000 2 6000 log
    = (Unprocessable422
         [under "body"
            (value_error "Invalid: bath should typically be ≤ (bhk + 2).")],
       log).
Proof. repeat split. Qed.

(** ** Vectorization *)

Lemma comprehension_Forall2 {A B} (f : A -> result B) names vs :
  comprehension f names = Return vs ->
  Forall2 (fun name v => f name = Return v) names vs.
Proof.
  revert vs. induction names as [|name rest IH]; simpl; intros vs H.
  - injection H as <-. constructor.
  - destruct (f name) as [v|e] eqn:Ef; simpl in H; [|discriminate].
    destruct (comprehension f rest) as [vs'|e] eqn:Er; simpl in H; [|discriminate].
    injection H as <-. constructor; auto.
Qed.

Lemma comprehension_total {A B} (f : A -> result B) names :
  Forall (fun name => exists v, f name = Return v) names ->
  exists vs, comprehension f names = Return vs.
Proof.
  induction 1 as [|name rest [v Hv] _ [vs Hvs]]; simpl.
  - eauto.
  - rewrite Hv, Hvs. simpl. eauto.
Qed.

(** The first name without a value ends a comprehension with its exception. *)
Lemma comprehension_raises {A B} (f : A -> result B) done name rest e :
  Forall (fun name => exists v, f name = Return v) done ->
  f name = Raise e ->
  comprehension f (done ++ name :: rest) = Raise e.
Proof.
  intros Hdone Hname. induction Hdone as [|d ds [v Hv] _ IH]; simpl.
  - rewrite Hname. reflexivity.
  - rewrite Hv, IH. reflexivity.
Qed.

(** What the dict of [make_feature_vector] holds. *)
Lemma feature_map_lookup req name :
  feature_map req !! name =
    if decide (name = "bath") then Some (PyInt (bath req))
    else if decide (name = "balcony") then Some (PyInt (balcony req))
    else if decide (name = "total_sqft_int") then Some (PyFloat (total_sqft_int req))
    else if decide (name = "bhk") then Some (PyInt (bhk req))
    else if decide (name = "price_per_sqft") then Some (PyFloat (price_per_sqft req))
    else None.
Proof.
  unfold feature_map.
  repeat (case_decide; [subst name; reflexivity |]).
  repeat (rewrite lookup_insert_ne; [| congruence]).
  apply lookup_singleton_ne. congruence.
Qed.

Lemma feature_map_known req name :
  name ∈ default_feature_order -> exists v, feature_map req !! name = Some v.
Proof.
  unfold default_feature_order. rewrite !elem_of_cons, elem_of_nil.
  intros [->|[->|[->|[->|[->|[]]]]]]; eexists; reflexivity.
Qed.

Lemma feature_map_unknown req name :
  name ∉ default_feature_order -> feature_map req !! name = None.
Proof.
  unfold default_feature_order. rewrite !not_elem_of_cons.
  intros (? & ? & ? & ? & ? & _). rewrite feature_map_lookup.
  repeat (case_decide; [contradiction |]). reflexivity.
Qed.

(** What [make_feature_vector] returns is one row, with one value per name
    of [FEATURE_ORDER], each the float of the dict entry of that name. *)
Lemma make_feature_vector_Return app req rows :
  make_feature_vector app req = Return rows ->
  exists x, rows = [x] /\
    Forall2 (fun name v => column req name = Return v) (FEATURE_ORDER app) x.
Proof.
  unfold make_feature_vector. intros H.
  destruct (comprehension _ _) as [x|e] eqn:Ec; simpl in H; [|discriminate].
  injection H as <-. exists x. split; [reflexivity |].
  exact (comprehension_Forall2 _ _ _ Ec).
Qed.

Lemma column_known req name :
  name ∈ default_feature_order -> exists v, column req name = Return v.
Proof.
  intros H. destruct (feature_map_known req name H) as [v Hv].
  unfold column, getitem. rewrite Hv. simpl. eauto.
Qed.

Lemma column_unknown req name :
  name ∉ default_feature_order -> column req name = Raise (KeyError name).
Proof.
  intros H. unfold column, getitem. rewrite (feature_map_unknown req name H).
  reflexivity.
Qed.

(** ** The handler *)

(** [predict] step by step: every exception of the [try] block leaves as a
    400, and the log grows by the array exactly when [MODEL.predict] is
    reached. *)
Lemma predict_run app req log :
  predict app req log =
    match make_feature_vector app req with
    | Raise e => (Raise (failed e), log)
    | Return x =>
        match model_predict (MODEL app) x with
        | Raise e => (Raise (failed e), log ++ [x])
        | Return ys =>
            match index ys 0 with
            | Raise e => (Raise (failed e), log ++ [x])
            | Return y_pred =>
                match index x 0 with
                | Raise e => (Raise (failed e), log ++ [x])
                | Return row =>
                    (Return {| predicted_price_lakhs := round2 y_pred;
                               feature_order := FEATURE_ORDER app;
                               features_used := row |}, log ++ [x])
                end
            end
        end
    end.
Proof.
  unfold predict, try_except, andThen, call_predict, pure, failed.
  destruct (make_feature_vector app req) as [x|e]; [|reflexivity].
  destruct (model_predict (MODEL app) x) as [ys|e]; [|reflexivity].
  destruct (index ys 0) as [y_pred|e]; [|reflexivity].
  destruct (index x 0) as [row|e]; reflexivity.
Qed.

(** Vectorization fails loudly: the first name of [FEATURE_ORDER] that is
    not a field of the request raises [KeyError], which [predict] answers
    with a 400 before the predictor is reached. *)
Lemma make_feature_vector_unknown_column app req known name rest :
  FEATURE_ORDER app = known ++ name :: rest ->
  Forall (fun name => name ∈ default_feature_order) known ->
  name ∉ default_feature_order ->
  make_feature_vector app req = Raise (KeyError name) /\
  forall log, predict app req log = (Raise (failed (KeyError name)), log).
Proof.
  intros Horder Hknown Hname.
  assert (Hvec : make_feature_vector app req = Raise (KeyError name)).
  { unfold make_feature_vector. fold (column req). rewrite Horder.
    rewrite (comprehension_raises (column req) known name rest (KeyError name)).
    - reflexivity.
    - eapply Forall_impl; [exact Hknown |]. intros n. apply column_known.
    - apply column_unknown. exact Hname. }
  split; [exact Hvec |]. intros log. rewrite predict_run, Hvec. reflexivity.
Qed.

(** The sample artifacts start the server in the sample states, and no
    file or no ["model"] entry stops the start. *)
Lemma startup_samples :
  startup (Some Sample.artifact) = Return Sample.app /\
  startup (Some Sample.artifact_without_order) = Return Sample.app_without_order /\
  startup (Some Sample.artifact_unknown_column) = Return Sample.app_unknown_column /\
  startup (Some Sample.artifact_short_order) = Return Sample.app_short_order /\
  startup None = Raise (RuntimeError "Model file not found") /\
  startup (Some {| payload_model := None; payload_feature_order := None |})
    = Raise (KeyError "model").
Proof. repeat split. Qed.

(** ** The column order *)

(** C3, as stated, fails: an artifact that stores no [feature_order] starts
    the server, which then runs with the order written in [main.py], an
    order the artifact does not contain. *)
Lemma C3_artifact_without_order_counterexample :
  startup (Some Sample.artifact_without_order) = Return Sample.app_without_order /\
  payload_feature_order Sample.artifact_without_order
    <> Some (FEATURE_ORDER Sample.app_without_order).
Proof. split; [reflexivity | discriminate]. Qed.

(** C3, amended.  For every artifact the server starts with: when the
    artifact stores a list of column names, [FEATURE_ORDER] is that list;
    when it stores none, [FEATURE_ORDER] is the default of [main.py]; and
    the vectorizer takes its columns from [FEATURE_ORDER], one value per
    name and in that order. *)
Theorem C3_feature_order_of_artifact payload app :
  startup (Some payload) = Return app ->
  (forall names, payload_feature_order payload = Some names ->
     FEATURE_ORDER app = names) /\
  (payload_feature_order payload = None ->
     FEATURE_ORDER app = default_feature_order) /\
  (forall req rows, make_feature_vector app req = Return rows ->
     exists x, rows = [x] /\
       Forall2 (fun name v => column req name = Return v) (FEATURE_ORDER app) x).
Proof.
  unfold startup. intros H.
  destruct (payload_model payload) as [m|]; [|discriminate].
  injection H as <-. simpl. repeat split.
  - intros names ->. reflexivity.
  - intros ->. reflexivity.
  - intros req rows. apply make_feature_vector_Return.
Qed.

Lemma C3_feature_order_of_artifact_witness :
  FEATURE_ORDER Sample.app =
    ["bhk"; "bath"; "balcony"; "total_sqft_int"; "price_per_sqft"] /\
  exists x,
    make_feature_vector Sample.app (Build_PredictRequest 2 1 1000 3 6000) = Return [x] /\
    Forall2 (fun name v => column (Build_PredictRequest 2 1 1000 3 6000) name = Return v)
      (FEATURE_ORDER Sample.app) x.
Proof.
  destruct (C3_feature_order_of_artifact Sample.artifact Sample.app eq_refl)
    as (Hstored & _ & Hvec).
  split.
  - apply Hstored. reflexivity.
  - destruct (Hvec (Build_PredictRequest 2 1 1000 3 6000)
                [[3; 2; 1; 1000; 6000]%Q] eq_refl) as (x & Hx & Hcols).
    exists x. split; [|exact Hcols].
    injection Hx as <-. reflexivity.
Defined.

(** C4, as stated, fails: the server starts with an artifact whose order
    names a column the request does not have, and for an input that
    satisfies all seven constraints vectorization raises [KeyError] instead
    of producing a vector. *)
Lemma C4_unknown_column_counterexample :
  startup (Some Sample.artifact_unknown_column) = Return Sample.app_unknown_column /\
  PredictRequest_init 2 1 1000 2 6000 = Return (Build_PredictRequest 2 1 1000 2 6000) /\
  make_feature_vector Sample.app_unknown_column (Build_PredictRequest 2 1 1000 2 6000)
    = Raise (KeyError "area_type").
Proof. repeat split. Qed.

(** C4, amended.  When every name of [FEATURE_ORDER] is one of the five
    request fields: for every input satisfying the five range constraints
    and the two cross-field rules, validation accepts the request and
    vectorization produces a vector as long as [FEATURE_ORDER] whose value
    at each position is the request field named by [FEATURE_ORDER] there. *)
Theorem C4_accept_and_vectorize app bath balcony total bhk pps :
  1 <= bhk <= 12 -> 1 <= bath <= 12 -> 0 <= balcony <= 6 ->
  (200 < total)%Q -> (0 < pps)%Q ->
  bath <= bhk + 2 -> (350 <= total / inject_Z bhk)%Q ->
  Forall (fun name => name ∈ default_feature_order) (FEATURE_ORDER app) ->
  let req := Build_PredictRequest bath balcony total bhk pps in
  PredictRequest_init bath balcony total bhk pps = Return req /\
  exists x,
    make_feature_vector app req = Return [x] /\
    length x = length (FEATURE_ORDER app) /\
    forall i : nat,
      (FEATURE_ORDER app !! i = Some "bath" -> x !! i = Some (inject_Z bath)) /\
      (FEATURE_ORDER app !! i = Some "balcony" -> x !! i = Some (inject_Z balcony)) /\
      (FEATURE_ORDER app !! i = Some "total_sqft_int" -> x !! i = Some total) /\
      (FEATURE_ORDER app !! i = Some "bhk" -> x !! i = Some (inject_Z bhk)) /\
      (FEATURE_ORDER app !! i = Some "price_per_sqft" -> x !! i = Some pps).
Proof.
  intros Hbhk Hbath Hbalcony Htotal Hpps Hrule1 Hrule2 Hnames req.
  split; [apply PredictRequest_init_accepts_iff; tauto |].
  destruct (comprehension_total (column req) (FEATURE_ORDER app)) as [x Hx].
  { eapply Forall_impl; [exact Hnames |]. intros name. apply column_known. }
  exists x.
  assert (Hvec : make_feature_vector app req = Return [x]).
  { unfold make_feature_vector. fold (column req). rewrite Hx. reflexivity. }
  pose proof (comprehension_Forall2 _ _ _ Hx) as Hcols.
  split; [exact Hvec |]. split; [symmetry; exact (Forall2_length _ _ _ Hcols) |].
  intros i.
  assert (Hat : forall name v, column req name = Return v ->
            FEATURE_ORDER app !! i = Some name -> x !! i = Some v).
  { intros name v Hcol Hi.
    destruct (Forall2_lookup_l _ _ _ _ _ Hcols Hi) as (v' & Hv' & Hcol').
    rewrite Hcol in Hcol'. injection Hcol' as <-. exact Hv'. }
  repeat split; apply Hat; reflexivity.
Qed.

Lemma C4_accept_and_vectorize_witness :
  PredictRequest_init 2 1 1000 2 6000 = Return (Build_PredictRequest 2 1 1000 2 6000) /\
  exists x,
    make_feature_vector Sample.app (Build_PredictRequest 2 1 1000 2 6000) = Return [x] /\
    length x = length (FEATURE_ORDER Sample.app) /\
    forall i : nat,
      (FEATURE_ORDER Sample.app !! i = Some "bath" -> x !! i = Some (inject_Z 2)) /\
      (FEATURE_ORDER Sample.app !! i = Some "balcony" -> x !! i = Some (inject_Z 1)) /\
      (FEATURE_ORDER Sample.app !! i = Some "total_sqft_int" -> x !! i = Some 1000%Q) /\
      (FEATURE_ORDER Sample.app !! i = Some "bhk" -> x !! i = Some (inject_Z 2)) /\
      (FEATURE_ORDER Sample.app !! i = Some "price_per_sqft" -> x !! i = Some 6000%Q).
Proof.
  apply (C4_accept_and_vectorize Sample.app 2 1 1000%Q 2 6000%Q);
    try lia; try reflexivity.
  - unfold Qle. simpl. lia.
  - repeat constructor.
Defined.

(** C5. For every successful prediction, [features_used] is the row that
    [make_feature_vector] builds from the same request and the loaded
    [FEATURE_ORDER], and the array sent to [MODEL.predict] is that row as a
    1 x n array. *)
Theorem C5_features_used_is_the_vector app req log resp log' :
  predict app req log = (Return resp, log') ->
  exists x,
    make_feature_vector app req = Return [x] /\
    features_used resp = x /\
    log' = log ++ [[x]] /\
    feature_order resp = FEATURE_ORDER app.
Proof.
  rewrite predict_run. intros H.
  destruct (make_feature_vector app req) as [rows|e] eqn:Ev; [|discriminate].
  destruct (make_feature_vector_Return _ _ _ Ev) as (x & -> & _).
  exists x.
  destruct (model_predict (MODEL app) [x]) as [ys|e]; [|discriminate].
  destruct (index ys 0) as [y_pred|e]; [|discriminate].
  simpl in H. injection H as <- <-. auto.
Qed.

Lemma C5_features_used_is_the_vector_witness :
  exists x,
    make_feature_vector Sample.app (Build_PredictRequest 2 1 1000 2 6000) = Return [x] /\
    x = [2; 2; 1; 1000; 6000]%Q.
Proof.
  edestruct (C5_features_used_is_the_vector Sample.app
               (Build_PredictRequest 2 1 1000 2 6000) [])
    as (x & Hvec & Hused & _).
  - vm_compute. reflexivity.
  - exists x. split; [exact Hvec | symmetry; exact Hused].
Defined.

(** C7. If [MODEL.predict] raises, [predict] raises [HTTPException] with
    status 400 and the detail "Prediction failed: ..." in its place, and
    both routes answer 400 with that detail: an error response, not a 200
    and not an escaping exception. *)
Theorem C7_predictor_exception_is_400 app bath balcony total bhk pps req x e log :
  PredictRequest_init bath balcony total bhk pps = Return req ->
  make_feature_vector app req = Return x ->
  model_predict (MODEL app) x = Raise e ->
  let detail := String.append "Prediction failed: " (str e) in
  predict app req log = (Raise (HTTPException 400 detail), log ++ [x]) /\
  post_predict app bath balcony total bhk pps log = (HTTPError 400 detail, log ++ [x]) /\
  get_predict app bhk
    (Build_QueryParams (Some bath) (Some balcony) (Some total) (Some pps)) log
    = (HTTPError 400 detail, log ++ [x]) /\
  status (HTTPError (A := PredictResponse) 400 detail) <> 200.
Proof.
  intros Hreq Hvec Hraise detail.
  assert (Hrun : predict app req log = (Raise (HTTPException 400 detail), log ++ [x])).
  { rewrite predict_run, Hvec, Hraise. reflexivity. }
  assert (Hpost : post_predict app bath balcony total bhk pps log
                  = (HTTPError 400 detail, log ++ [x])).
  { unfold post_predict. rewrite Hreq, Hrun. reflexivity. }
  repeat split; [exact Hrun | exact Hpost | | discriminate].
  rewrite <- Hpost.
  exact (get_predict_delegates app bhk
           (Build_QueryParams (Some bath) (Some balcony) (Some total) (Some pps))
           log req Hreq).
Qed.

Lemma C7_predictor_exception_is_400_witness :
  post_predict Sample.app_short_order 2 1 1000 2 6000 []
  = (HTTPError 400
       "Prediction failed: X does not have the number of features LinearRegression is expecting",
     [[[2; 2]%Q]]).
Proof.
  exact (proj1 (proj2
    (C7_predictor_exception_is_400 Sample.app_short_order 2 1 1000%Q 2 6000%Q
       (Build_PredictRequest 2 1 1000 2 6000) [[2; 2]%Q]
       (ValueError "X does not have the number of features LinearRegression is expecting")
       [] eq_refl eq_refl eq_refl))).
Defined.

(** ** Boundaries of the cross-field rules *)

(** C6. For inputs within the field ranges: an area of exactly 350 per
    bedroom is accepted and any smaller one is rejected (by the area rule
    when the bathroom rule holds); [bath = bhk + 2] is accepted and
    [bath = bhk + 3] is rejected by the bathroom rule. *)
Theorem C6_cross_field_boundaries bath balcony total bhk pps :
  1 <= bath <= 12 -> 0 <= balcony <= 6 -> (200 < total)%Q ->
  1 <= bhk <= 12 -> (0 < pps)%Q ->
  let req := Build_PredictRequest bath balcony total bhk pps in
  let init := PredictRequest_init bath balcony total bhk pps in
  ((total / inject_Z bhk == 350)%Q -> bath <= bhk + 2 -> init = Return req) /\
  ((total / inject_Z bhk < 350)%Q ->
     (exists errors, init = Raise (ValidationError errors)) /\
     (bath <= bhk + 2 ->
        init = Raise (ValidationError
                 [value_error "Invalid: sqft per BHK must be ≥ 350 (data cleaning rule)."]))) /\
  (bath = bhk + 2 -> (350 <= total / inject_Z bhk)%Q -> init = Return req) /\
  (bath = bhk + 3 ->
     init = Raise (ValidationError
              [value_error "Invalid: bath should typically be ≤ (bhk + 2)."])).
Proof.
  intros Hbath Hbalcony Htotal Hbhk Hpps req init.
  assert (Hfields : field_errors req = []).
  { apply field_errors_nil. simpl. tauto. }
  assert (Hinit : init = match logical_rules req with
                         | Raise (ValueError msg) => Raise (ValidationError [value_error msg])
                         | r => r
                         end).
  { subst init. unfold PredictRequest_init. fold req. rewrite Hfields. reflexivity. }
  assert (Hnz : Server.bhk req <> 0) by (simpl; lia).
  assert (Hlim : Z.abs (Server.bhk req) < int_float_limit).
  { pose proof int_float_limit_above. simpl. lia. }
  destruct (logical_rules_cases req Hnz Hlim) as [[Hb E]|[(Hb & Ha & E)|(Hb & Ha & E)]];
    simpl in Hb; try (simpl in Ha); rewrite E in Hinit; clear E.
  - repeat split; intros; try lia; eauto.
  - repeat split; intros; try lia; eauto.
    + exfalso. apply (Qlt_irrefl 350). rewrite <- H at 1. exact Ha.
    + exfalso. exact (Qlt_not_le _ _ Ha H0).
  - repeat split; intros; try lia; eauto;
      exfalso; exact (Qlt_not_le _ _ H Ha).
Qed.

Lemma C6_cross_field_boundaries_witness :
  PredictRequest_init 4 1 700 2 6000 = Return (Build_PredictRequest 4 1 700 2 6000) /\
  PredictRequest_init 4 1 (6999 # 10) 2 6000 =
    Raise (ValidationError
      [value_error "Invalid: sqft per BHK must be ≥ 350 (data cleaning rule)."]) /\
  PredictRequest_init 5 1 700 2 6000 =
    Raise (ValidationError
      [value_error "Invalid: bath should typically be ≤ (bhk + 2)."]).
Proof.
  assert (Hbath4 : 1 <= 4 <= 12) by lia.
  assert (Hbath5 : 1 <= 5 <= 12) by lia.
  assert (Hbalcony : 0 <= 1 <= 6) by lia.
  assert (Harea : (200 < 700)%Q) by reflexivity.
  assert (Harea' : (200 < 6999 # 10)%Q) by reflexivity.
  assert (Hbhk : 1 <= 2 <= 12) by lia.
  assert (Hpps : (0 < 6000)%Q) by reflexivity.
  split; [| split].
  - destruct (C6_cross_field_boundaries 4 1 700%Q 2 6000%Q
                Hbath4 Hbalcony Harea Hbhk Hpps) as (Hexact & _).
    apply Hexact; [reflexivity | lia].
  - destruct (C6_cross_field_boundaries 4 1 (6999 # 10)%Q 2 6000%Q
                Hbath4 Hbalcony Harea' Hbhk Hpps) as (_ & Hbelow & _).
    apply Hbelow; [reflexivity | lia].
  - destruct (C6_cross_field_boundaries 5 1 700%Q 2 6000%Q
                Hbath5 Hbalcony Harea Hbhk Hpps) as (_ & _ & _ & Hplus3).
    apply Hplus3. reflexivity.
Defined.

(** The same boundaries with the quotient rounded to binary64: for each
    [bhk] from 1 to 12 the area [350 * bhk] is accepted, the largest float
    under it is rejected, and the default area 1000.0 is rejected exactly
    from [bhk = 3] on. *)
Lemma binary64_boundaries :
  Binary64.boundary_accepted = true /\
  Binary64.just_below_rejected = true /\
  Binary64.default_area_rejected_from_3 = true.
Proof. repeat split; vm_compute; reflexivity. Qed.

(** [int_float_limit] is where the conversion to binary64 starts to
    overflow, on both sides of zero. *)
Lemma binary64_int_float_limit :
  Binary64.overflows (int_float_limit - 1) = false /\
  Binary64.overflows int_float_limit = true /\
  Binary64.overflows (- (int_float_limit - 1)) = false /\
  Binary64.overflows (- int_float_limit) = true.
Proof. repeat split; vm_compute; reflexivity. Qed.

(** ** Enumerating the violations *)




Lemma append_if_app cond msg issues :
  append_if cond msg issues = issues ++ (if cond then [msg] else []).
Proof. unfold append_if. destruct cond; [reflexivity | symmetry; apply app_nil_r]. Qed.

(** The list [validate_inputs] returns when [bhk] converts to a float: the
    messages of the rules that fired, in the order of the checks. *)
Lemma validate_inputs_Return bhk bath balcony sqft pps :
  bhk < int_float_limit ->
  validate_inputs bhk bath balcony sqft pps =
    Return
      ((if (bhk <? 1) || (bhk >? 12) then ["BHK must be between 1 and 12."] else []) ++
       (if (bath <? 1) || (bath >? 12) then ["Bathrooms must be between 1 and 12."] else []) ++
       (if (balcony <? 0) || (balcony >? 6) then ["Balconies must be between 0 and 6."] else []) ++
       (if Qle_bool sqft 200 then ["Total sqft must be > 200."] else []) ++
       (if Qle_bool pps 0 then ["Price per sqft must be > 0."] else []) ++
       (if (bhk >=? 1) && Qltb (sqft / inject_Z bhk) 350
        then ["Sqft per BHK should be ≥ 350 (data cleaning rule)."] else []) ++
       (if bath >? bhk + 2 then ["Bathrooms should typically be ≤ (BHK + 2)."] else [])).
Proof.
  intros Hlim. unfold validate_inputs.
  assert (E : (if bhk >=? 1
               then bind (truediv sqft bhk) (fun q => Return (Qltb q 350))
               else Return false)
              = Return ((bhk >=? 1) && Qltb (sqft / inject_Z bhk) 350)).
  { destruct (Z.geb_spec bhk 1); [| reflexivity].
    rewrite truediv_Return by lia. reflexivity. }
  rewrite E. simpl bind. rewrite !append_if_app. simpl.
  rewrite <- !app_assoc. reflexivity.
Qed.

(** For a [bhk] that does not convert, the division of the area rule
    raises and no list is returned. *)
Lemma validate_inputs_overflow bhk bath balcony sqft pps :
  int_float_limit <= bhk ->
  validate_inputs bhk bath balcony sqft pps =
    Raise (OverflowError "int too large to convert to float").
Proof.
  intros Hlim. pose proof int_float_limit_above as Habove.
  unfold validate_inputs, truediv.
  destruct (Z.geb_spec bhk 1); [| lia].
  destruct (Z.leb_spec int_float_limit (Z.abs bhk)); [reflexivity | lia].
Qed.












(** ** The query defaults *)

Lemma default_area_per_bhk bhk :
  1 <= bhk ->
  ((350 <= 1000 / inject_Z bhk)%Q <-> bhk <= 2) /\
  ((1000 / inject_Z bhk < 350)%Q <-> 3 <= bhk).
Proof.
  intros Hbhk.
  assert (Hpos : (0 < inject_Z bhk)%Q) by (unfold Qlt; simpl; lia).
  assert (Hsmall : bhk <= 2 -> (350 <= 1000 / inject_Z bhk)%Q).
  { intros H. apply Qle_shift_div_l; [exact Hpos |]. unfold Qle. simpl. lia. }
  assert (Hlarge : 3 <= bhk -> (1000 / inject_Z bhk < 350)%Q).
  { intros H. apply Qlt_shift_div_r; [exact Hpos |]. unfold Qlt. simpl. lia. }
  split; split; auto; intros H.
  - destruct (Z_le_gt_dec bhk 2) as [|Hgt]; [assumption |].
    exfalso. apply (Qlt_not_le _ _ (Hlarge ltac:(lia)) H).
  - destruct (Z_le_gt_dec bhk 2) as [Hle|]; [| lia].
    exfalso. apply (Qlt_not_le _ _ H (Hsmall Hle)).
Qed.

(** A request within the field ranges whose bathrooms fit and whose area
    per bedroom is below 350 is rejected by the area rule. *)
Lemma PredictRequest_init_area_rule bath balcony total bhk pps :
  field_errors (Build_PredictRequest bath balcony total bhk pps) = [] ->
  bath <= bhk + 2 -> (total / inject_Z bhk < 350)%Q ->
  PredictRequest_init bath balcony total bhk pps =
    Raise (ValidationError
      [value_error "Invalid: sqft per BHK must be ≥ 350 (data cleaning rule)."]).
Proof.
  intros Hfields Hbath Harea. unfold PredictRequest_init. rewrite Hfields.
  assert (Hnz : Server.bhk (Build_PredictRequest bath balcony total bhk pps) <> 0 /\
                Z.abs (Server.bhk (Build_PredictRequest bath balcony total bhk pps))
                  < int_float_limit).
  { apply field_errors_nil in Hfields. pose proof int_float_limit_above.
    simpl in *. lia. }
  destruct (logical_rules_cases _ (proj1 Hnz) (proj2 Hnz))
    as [[Hb _]|[(_ & _ & ->)|(_ & Ha & _)]];
    simpl in *; [lia | reflexivity |].
  exfalso. exact (Qlt_not_le _ _ Harea Ha).
Qed.

(** C9. With only the path parameter given, the request built from the
    query defaults validates exactly for [bhk = 1] and [bhk = 2], and then
    the route answers with what [predict] does.  For every [bhk >= 3] the
    quotient [1000.0 / bhk] is below 350, and it is what the division
    returns for every [bhk] that converts to a float (beyond that range the
    division itself raises [OverflowError]); for [bhk] from 3 to 12 this is
    the rule that rejects the request, and for no [bhk >= 3] is there a 200
    or a call of the predictor. *)
Theorem C9_query_defaults_validate_only_for_bhk_1_and_2 bhk :
  (PredictRequest_init 2 1 1000 bhk 6000 = Return (Build_PredictRequest 2 1 1000 bhk 6000)
     <-> bhk = 1 \/ bhk = 2) /\
  (3 <= bhk ->
     Qltb (1000 / inject_Z bhk) 350 = true /\
     (bhk < int_float_limit -> truediv 1000 bhk = Return (1000 / inject_Z bhk)%Q) /\
     (int_float_limit <= bhk ->
        truediv 1000 bhk = Raise (OverflowError "int too large to convert to float"))) /\
  (3 <= bhk <= 12 ->
     PredictRequest_init 2 1 1000 bhk 6000 =
       Raise (ValidationError
         [value_error "Invalid: sqft per BHK must be ≥ 350 (data cleaning rule)."])) /\
  (forall app log, 3 <= bhk ->
     status (fst (get_predict app bhk no_query log)) <> 200 /\
     snd (get_predict app bhk no_query log) = log) /\
  (forall app log, bhk = 1 \/ bhk = 2 ->
     get_predict app bhk no_query log =
       let (outcome, log') := predict app (Build_PredictRequest 2 1 1000 bhk 6000) log in
       (respond outcome, log')).
Proof.
  assert (Haccept : PredictRequest_init 2 1 1000 bhk 6000
                      = Return (Build_PredictRequest 2 1 1000 bhk 6000)
                    <-> bhk = 1 \/ bhk = 2).
  { rewrite PredictRequest_init_accepts_iff. split.
    - intros (_ & _ & _ & Hbhk & _ & _ & Harea).
      apply default_area_per_bhk in Harea; lia.
    - intros Hbhk.
      assert (Harea : (350 <= 1000 / inject_Z bhk)%Q)
        by (apply default_area_per_bhk; lia).
      repeat split; try lia; try reflexivity. exact Harea. }
  assert (Hbelow : 3 <= bhk -> (1000 / inject_Z bhk < 350)%Q)
    by (intros; apply default_area_per_bhk; lia).
  split; [exact Haccept |]. split; [| split; [| split]].
  - intros H. split; [apply Qltb_lt; auto |]. split.
    + intros Hlim. apply truediv_Return; lia.
    + intros Hlim. unfold truediv.
      destruct (Z.leb_spec int_float_limit (Z.abs bhk)); [reflexivity | lia].
  - intros H. apply PredictRequest_init_area_rule; [| lia | auto with zarith].
    apply field_errors_nil. simpl. repeat split; try lia; reflexivity.
  - intros app log H.
    assert (Hrej : PredictRequest_init 2 1 1000 bhk 6000
                   <> Return (Build_PredictRequest 2 1 1000 bhk 6000)).
    { rewrite Haccept. lia. }
    destruct (rejected_input_never_predicts app 2 1 1000%Q bhk 6000%Q log Hrej)
      as (_ & _ & Hstatus & Hlog).
    change (get_predict app bhk
              (Build_QueryParams (Some 2) (Some 1) (Some 1000%Q) (Some 6000%Q)) log)
      with (get_predict app bhk no_query log) in Hstatus, Hlog.
    split; [lia | exact Hlog].
  - intros app log H.
    assert (Hchecks : check_ge_le ["path"; "bhk"] 1 12 bhk = []).
    { apply check_ge_le_nil. lia. }
    apply Haccept in H.
    unfold get_predict, no_query. simpl default. rewrite Hchecks. simpl.
    unfold predict_via_query, andThen, pure at 1. rewrite H. reflexivity.
Qed.

Lemma C9_query_defaults_validate_only_for_bhk_1_and_2_witness :
  PredictRequest_init 2 1 1000 2 6000 = Return (Build_PredictRequest 2 1 1000 2 6000) /\
  PredictRequest_init 2 1 1000 3 6000 =
    Raise (ValidationError
      [value_error "Invalid: sqft per BHK must be ≥ 350 (data cleaning rule)."]) /\
  status (fst (get_predict Sample.app 3 no_query [])) <> 200.
Proof.
  destruct (C9_query_defaults_validate_only_for_bhk_1_and_2 2) as (Haccept & _).
  destruct (C9_query_defaults_validate_only_for_bhk_1_and_2 3)
    as (_ & _ & Hrule & Hget & _).
  split; [| split].
  - apply Haccept. right. reflexivity.
  - apply Hrule. lia.
  - apply (Hget Sample.app []). lia.
Defined.

(** ** Division by zero *)

(** C10. The division of the area rule never divides by zero.  On the
    server the validator runs only on a request whose fields passed, where
    [bhk >= 1], so the division returns and the constructor never raises
    [ZeroDivisionError]; without the field constraints the same validator
    does raise it at [bhk = 0].  On the client the division sits behind
    [bhk >= 1]: [validate_inputs] never raises [ZeroDivisionError], for any
    input, and it returns its list for every [bhk] that converts to a
    float. *)
Theorem C10_area_rule_never_divides_by_zero :
  (forall bath balcony total bhk pps,
     (field_errors (Build_PredictRequest bath balcony total bhk pps) = [] ->
        1 <= bhk /\ truediv total bhk = Return (total / inject_Z bhk)%Q) /\
     (forall msg,
        PredictRequest_init bath balcony total bhk pps <> Raise (ZeroDivisionError msg))) /\
  logical_rules (Build_PredictRequest 1 1 1000 0 6000)
    = Raise (ZeroDivisionError "float division by zero") /\
  (forall bhk bath balcony sqft pps,
     (forall msg,
        validate_inputs bhk bath balcony sqft pps <> Raise (ZeroDivisionError msg)) /\
     (1 <= bhk -> forall msg, truediv sqft bhk <> Raise (ZeroDivisionError msg)) /\
     (bhk < int_float_limit ->
        exists issues, validate_inputs bhk bath balcony sqft pps = Return issues)).
Proof.
  pose proof int_float_limit_above as Habove.
  split; [| split; [reflexivity |]].
  - intros bath balcony total bhk pps. split.
    + intros Hfields. apply field_errors_nil in Hfields. simpl in Hfields.
      split; [lia |]. apply truediv_Return; lia.
    + intros msg.
      destruct (PredictRequest_init_outcome bath balcony total bhk pps)
        as [(_ & _ & ->)|[(_ & m & _ & ->)|(_ & ->)]]; discriminate.
  - intros bhk bath balcony sqft pps. split; [| split].
    + intros msg.
      destruct (Z.lt_ge_cases bhk int_float_limit) as [Hlim|Hlim].
      * rewrite (validate_inputs_Return _ _ _ _ _ Hlim). discriminate.
      * rewrite (validate_inputs_overflow _ _ _ _ _ Hlim). discriminate.
    + intros H msg. unfold truediv.
      destruct (_ <=? _); [discriminate |].
      destruct (Z.eqb_spec bhk 0); [lia | discriminate].
    + intros Hlim. eexists. apply validate_inputs_Return. exact Hlim.
Qed.

Lemma C10_area_rule_never_divides_by_zero_witness :
  truediv 1000 2 = Return (1000 / inject_Z 2)%Q /\
  (forall msg, truediv 1000 2 <> Raise (ZeroDivisionError msg)) /\
  exists issues, validate_inputs 0 2 1 1000 6000 = Return issues.
Proof.
  destruct C10_area_rule_never_divides_by_zero as (Hserver & _ & Hclient).
  split; [| split].
  - apply (Hserver 2 1 1000%Q 2 6000%Q). reflexivity.
  - apply (Hclient 2 2 1 1000%Q 6000%Q). lia.
  - apply (Hclient 0 2 1 1000%Q 6000%Q). reflexivity.
Defined.

(** * Further properties of the code *)

(** ** Vectorization and the handler *)

(** A column order either consists of request fields only, or has a first
    name that is none. *)
Lemma feature_order_split (names : list string) :
  Forall (fun name => name ∈ default_feature_order) names \/
  exists known name rest,
    names = known ++ name :: rest /\
    Forall (fun name => name ∈ default_feature_order) known /\
    name ∉ default_feature_order.
Proof.
  induction names as [|name rest IH]; [left; constructor |].
  destruct (decide (name ∈ default_feature_order)) as [Hin|Hout].
  - destruct IH as [Hall|(known & bad & rest' & -> & Hknown & Hbad)].
    + left. constructor; assumption.
    + right. exists (name :: known), bad, rest'. repeat split; [constructor |]; assumption.
  - right. exists [], name, rest. repeat split; [constructor | assumption].
Qed.

(** X1. [make_feature_vector] returns exactly when every name of
    [FEATURE_ORDER] is one of the five request fields; the only exception
    it raises is the [KeyError] of a name of [FEATURE_ORDER] that is not a
    request field. *)
Theorem make_feature_vector_returns_iff app req :
  ((exists rows, make_feature_vector app req = Return rows) <->
   Forall (fun name => name ∈ default_feature_order) (FEATURE_ORDER app)) /\
  (forall e, make_feature_vector app req = Raise e ->
     exists name, e = KeyError name /\ name ∈ FEATURE_ORDER app /\
                  name ∉ default_feature_order).
Proof.
  destruct (feature_order_split (FEATURE_ORDER app))
    as [Hall|(known & name & rest & Horder & Hknown & Hbad)].
  - destruct (comprehension_total (column req) (FEATURE_ORDER app)) as [x Hx].
    { eapply Forall_impl; [exact Hall |]. intros n. apply column_known. }
    assert (Hvec : make_feature_vector app req = Return [x]).
    { unfold make_feature_vector. fold (column req). rewrite Hx. reflexivity. }
    split; [split; eauto |]. intros e He. congruence.
  - destruct (make_feature_vector_unknown_column app req known name rest
                Horder Hknown Hbad) as [Hvec _].
    split.
    + split.
      * intros [rows Hrows]. congruence.
      * intros Hall. exfalso. apply Hbad.
        rewrite Horder in Hall. apply Forall_app in Hall as [_ Hall].
        apply Forall_cons in Hall as [Hname _]. exact Hname.
    + intros e He. exists name. rewrite Hvec in He. injection He as <-.
      repeat split; [| exact Hbad]. rewrite Horder. set_solver.
Qed.

Lemma make_feature_vector_returns_iff_witness :
  exists rows,
    make_feature_vector Sample.app (Build_PredictRequest 2 1 1000 2 6000) = Return rows.
Proof.
  apply (make_feature_vector_returns_iff Sample.app (Build_PredictRequest 2 1 1000 2 6000)).
  repeat constructor.
Defined.

(** X2. When [FEATURE_ORDER] names a column that is not a request field,
    every request that validates is answered with a 400 whose detail shows
    the [repr] of the first such name (stated for names of ASCII
    characters, where [repr] is written out in full), on both routes, and
    the predictor is not called. *)
Theorem unknown_column_is_answered_400 app known name rest bath balcony total bhk pps req log :
  FEATURE_ORDER app = known ++ name :: rest ->
  Forall (fun name => name ∈ default_feature_order) known ->
  name ∉ default_feature_order ->
  ascii_only name = true ->
  PredictRequest_init bath balcony total bhk pps = Return req ->
  let answer :=
    (HTTPError (A := PredictResponse) 400
       (String.append "Prediction failed: " (repr name)),
     log) in
  post_predict app bath balcony total bhk pps log = answer /\
  get_predict app bhk
    (Build_QueryParams (Some bath) (Some balcony) (Some total) (Some pps)) log = answer.
Proof.
  intros Horder Hknown Hbad _ Hreq answer.
  destruct (make_feature_vector_unknown_column app req known name rest
              Horder Hknown Hbad) as [_ Hrun].
  assert (Hpost : post_predict app bath balcony total bhk pps log = answer).
  { unfold post_predict. rewrite Hreq, Hrun. reflexivity. }
  split; [exact Hpost |]. rewrite <- Hpost.
  exact (get_predict_delegates app bhk
           (Build_QueryParams (Some bath) (Some balcony) (Some total) (Some pps))
           log req Hreq).
Qed.

Lemma unknown_column_is_answered_400_witness :
  post_predict Sample.app_unknown_column 2 1 1000 2 6000 []
  = (HTTPError 400 "Prediction failed: 'area_type'", []).
Proof.
  refine (proj1 (unknown_column_is_answered_400 Sample.app_unknown_column
            ["bath"] "area_type" [] 2 1 1000%Q 2 6000%Q
            (Build_PredictRequest 2 1 1000 2 6000) [] eq_refl _ _ eq_refl eq_refl)).
  - repeat constructor.
  - unfold default_feature_order. rewrite !not_elem_of_cons.
    repeat split; try discriminate. apply not_elem_of_nil.
Defined.

(** [predict] returns or raises the 400 of its [except] clause. *)
Lemma predict_returns_or_fails app req log :
  (exists resp, fst (predict app req log) = Return resp) \/
  (exists e, fst (predict app req log) = Raise (failed e)).
Proof.
  rewrite predict_run.
  destruct (make_feature_vector app req) as [x|e]; [| simpl; eauto].
  destruct (model_predict (MODEL app) x) as [ys|e]; [| simpl; eauto].
  destruct (index ys 0) as [y_pred|e]; [| simpl; eauto].
  destruct (index x 0) as [row|e]; simpl; eauto.
Qed.

(** X3. Whatever the request and the model, [predict] either returns a
    response or raises [HTTPException] with status 400 and a detail that
    starts with "Prediction failed: "; it calls [MODEL.predict] at most
    once, and then with a one-row array that has one value per name of
    [FEATURE_ORDER]. *)
Theorem predict_outcomes app req log :
  ((exists resp, fst (predict app req log) = Return resp) \/
   (exists e, fst (predict app req log)
              = Raise (HTTPException 400 (String.append "Prediction failed: " (str e))))) /\
  (snd (predict app req log) = log \/
   exists x, snd (predict app req log) = log ++ [[x]] /\
             length x = length (FEATURE_ORDER app)).
Proof.
  rewrite predict_run.
  destruct (make_feature_vector app req) as [rows|e] eqn:Ev;
    [| simpl; split; [right; exists e; reflexivity | left; reflexivity]].
  destruct (make_feature_vector_Return _ _ _ Ev) as (x & -> & Hcols).
  assert (Hlen : length x = length (FEATURE_ORDER app)).
  { symmetry. exact (Forall2_length _ _ _ Hcols). }
  assert (Hlog : exists x', log ++ [[x]] = log ++ [[x']] /\
                            length x' = length (FEATURE_ORDER app)) by eauto.
  destruct (model_predict (MODEL app) [x]) as [ys|e];
    [| simpl; split; [right; exists e; reflexivity | right; exact Hlog]].
  destruct (index ys 0) as [y_pred|e]; simpl; split; eauto.
Qed.

(** The routes answer a request object with what [predict] does to it. *)
Lemma respond_predict_status app req log :
  status (respond (fst (predict app req log))) = 200 \/
  status (respond (fst (predict app req log))) = 400.
Proof.
  destruct (predict_returns_or_fails app req log) as [[resp ->]|[e ->]]; simpl; auto.
Qed.

(** X4. [POST /predict] answers 422 exactly when one of the seven
    constraints is violated, and then without calling the predictor; every
    other request is answered 200 or 400.  It never answers 500. *)
Theorem post_predict_statuses app bath balcony total bhk pps log :
  let r := post_predict app bath balcony total bhk pps log in
  (status (fst r) = 422 <->
   ~ (1 <= bath <= 12 /\ 0 <= balcony <= 6 /\ (200 < total)%Q /\
      1 <= bhk <= 12 /\ (0 < pps)%Q /\
      bath <= bhk + 2 /\ (350 <= total / inject_Z bhk)%Q)) /\
  (status (fst r) = 422 -> snd r = log) /\
  (status (fst r) = 200 \/ status (fst r) = 400 \/ status (fst r) = 422).
Proof.
  intros r. subst r.
  rewrite <- PredictRequest_init_accepts_iff.
  unfold post_predict.
  destruct (PredictRequest_init_outcome bath balcony total bhk pps)
    as [(_ & _ & E)|[(_ & msg & _ & E)|(_ & E)]]; rewrite E.
  - pose proof (respond_predict_status app
      (Build_PredictRequest bath balcony total bhk pps) log) as Hst.
    destruct (predict app _ log) as [outcome log']. simpl in *.
    repeat split; try lia; intros; try lia; try contradiction; tauto.
  - simpl. repeat split; auto; intros; discriminate.
  - simpl. repeat split; auto; intros; discriminate.
Qed.

(** [GET /predict/{bhk}] step by step. *)
Lemma get_predict_run app bhk query log :
  let bath := default 2 (q_bath query) in
  let balcony := default 1 (q_balcony query) in
  let total := default 1000%Q (q_total_sqft_int query) in
  let pps := default 6000%Q (q_price_per_sqft query) in
  get_predict app bhk query log =
    match check_ge_le ["path"; "bhk"] 1 12 bhk ++
          check_ge_le ["query"; "bath"] 1 12 bath ++
          check_ge_le ["query"; "balcony"] 0 6 balcony ++
          check_gt ["query"; "total_sqft_int"] 200 total ++
          check_gt ["query"; "price_per_sqft"] 0 pps with
    | [] =>
        match PredictRequest_init bath balcony total bhk pps with
        | Return req => (respond (fst (predict app req log)), snd (predict app req log))
        | Raise e => (respond (Raise e), log)
        end
    | errors => (Unprocessable422 errors, log)
    end.
Proof.
  intros bath balcony total pps. unfold get_predict. cbv zeta.
  fold bath balcony total pps.
  destruct (_ ++ _); [| reflexivity].
  unfold predict_via_query, andThen, pure.
  destruct (PredictRequest_init bath balcony total bhk pps) as [req|e]; [| reflexivity].
  destruct (predict app req log). reflexivity.
Qed.

(** X5. [GET /predict/{bhk}], with the defaults filled in for absent query
    parameters: 422 exactly when a range constraint of the path or query is
    violated; 500 exactly when the ranges hold and a cross-field rule is
    violated; 200 or 400 otherwise.  On 422 and 500 the predictor is not
    called. *)
Theorem get_predict_statuses app bhk query log :
  let bath := default 2 (q_bath query) in
  let balcony := default 1 (q_balcony query) in
  let total := default 1000%Q (q_total_sqft_int query) in
  let pps := default 6000%Q (q_price_per_sqft query) in
  let ranges := 1 <= bath <= 12 /\ 0 <= balcony <= 6 /\ (200 < total)%Q /\
                1 <= bhk <= 12 /\ (0 < pps)%Q in
  let rules := bath <= bhk + 2 /\ (350 <= total / inject_Z bhk)%Q in
  let r := get_predict app bhk query log in
  (status (fst r) = 422 <-> ~ ranges) /\
  (status (fst r) = 500 <-> ranges /\ ~ rules) /\
  (status (fst r) = 422 \/ status (fst r) = 500 -> snd r = log) /\
  (ranges /\ rules -> status (fst r) = 200 \/ status (fst r) = 400).
Proof.
  intros bath balcony total pps ranges rules r.
  pose proof (field_errors_nil (Build_PredictRequest bath balcony total bhk pps)) as Hf.
  simpl in Hf. fold ranges in Hf.
  pose proof (path_query_checks_nil bath balcony total bhk pps) as Hpq.
  pose proof (PredictRequest_init_accepts_iff bath balcony total bhk pps) as Hacc.
  assert (Hvalid : (1 <= bath <= 12 /\ 0 <= balcony <= 6 /\ (200 < total)%Q /\
                    1 <= bhk <= 12 /\ (0 < pps)%Q /\
                    bath <= bhk + 2 /\ (350 <= total / inject_Z bhk)%Q)
                   <-> ranges /\ rules) by (unfold ranges, rules; tauto).
  rewrite Hvalid in Hacc. clear Hvalid.
  subst r. rewrite get_predict_run. fold bath balcony total pps.
  clearbody ranges rules.
  destruct (PredictRequest_init_outcome bath balcony total bhk pps)
    as [(Hfe & _ & E)|[(Hfe & msg & _ & E)|(Hne & E)]].
  - assert (Hok : ranges /\ rules) by (apply Hacc; exact E).
    rewrite (proj2 Hpq Hfe), E.
    pose proof (respond_predict_status app
      (Build_PredictRequest bath balcony total bhk pps) log) as Hst.
    simpl. intuition lia.
  - assert (Hr : ranges) by (apply Hf; exact Hfe).
    assert (Hnot : ~ (ranges /\ rules)).
    { intros H. apply Hacc in H. congruence. }
    rewrite (proj2 Hpq Hfe), E. simpl.
    intuition discriminate.
  - assert (Hr : ~ ranges) by (intros H; apply Hne, Hf; exact H).
    destruct (_ ++ _) as [|e errors] eqn:El; [exfalso; apply Hne, Hpq; reflexivity |].
    simpl. intuition discriminate.
Qed.

(** X6. An absent query parameter acts as its default ([bath=2],
    [balcony=1], [total_sqft_int=1000.0], [price_per_sqft=6000.0]), and
    whenever the values so completed validate, [GET /predict/{bhk}] answers
    as [POST /predict] does for them. *)
Theorem get_predict_with_defaults app bhk query log :
  let bath := default 2 (q_bath query) in
  let balcony := default 1 (q_balcony query) in
  let total := default 1000%Q (q_total_sqft_int query) in
  let pps := default 6000%Q (q_price_per_sqft query) in
  get_predict app bhk query log
    = get_predict app bhk
        (Build_QueryParams (Some bath) (Some balcony) (Some total) (Some pps)) log /\
  (1 <= bath <= 12 /\ 0 <= balcony <= 6 /\ (200 < total)%Q /\
   1 <= bhk <= 12 /\ (0 < pps)%Q /\
   bath <= bhk + 2 /\ (350 <= total / inject_Z bhk)%Q ->
   get_predict app bhk query log = post_predict app bath balcony total bhk pps log).
Proof.
  intros bath balcony total pps. split; [reflexivity |].
  intros Hvalid. apply PredictRequest_init_accepts_iff in Hvalid.
  exact (get_predict_delegates app bhk query log _ Hvalid).
Qed.

Lemma get_predict_with_defaults_witness :
  get_predict Sample.app 2 no_query [] = post_predict Sample.app 2 1 1000 2 6000 [].
Proof.
  apply (get_predict_with_defaults Sample.app 2 no_query []).
  simpl. repeat split; try lia; try reflexivity.
  unfold Qle. simpl. lia.
Defined.

Lemma post_predict_statuses_witness :
  status (fst (post_predict Sample.app 5 1 1000 2 6000 [])) = 422 /\
  snd (post_predict Sample.app 5 1 1000 2 6000 []) = [].
Proof.
  destruct (post_predict_statuses Sample.app 5 1 1000%Q 2 6000%Q []) as (Hiff & Hlog & _).
  assert (H : status (fst (post_predict Sample.app 5 1 1000 2 6000 [])) = 422).
  { apply Hiff. intros (_ & _ & _ & _ & _ & Hrule & _). lia. }
  split; [exact H | exact (Hlog H)].
Defined.

Lemma get_predict_statuses_witness :
  status (fst (get_predict Sample.app 2 (Build_QueryParams (Some 5) None None None) [])) = 500 /\
  status (fst (get_predict Sample.app 13 no_query [])) = 422.
Proof.
  split.
  - apply (get_predict_statuses Sample.app 2 (Build_QueryParams (Some 5) None None None) []).
    simpl. split.
    + repeat split; try lia; reflexivity.
    + intros [Hrule _]. lia.
  - apply (get_predict_statuses Sample.app 13 no_query []).
    simpl. intros (_ & _ & _ & Hbhk & _). lia.
Defined.

(** ** The client *)

(** When [validate_inputs] has nothing to report. *)
Lemma validate_inputs_nil_iff bhk bath balcony sqft pps :
  validate_inputs bhk bath balcony sqft pps = Return [] <->
  1 <= bath <= 12 /\ 0 <= balcony <= 6 /\ (200 < sqft)%Q /\
  1 <= bhk <= 12 /\ (0 < pps)%Q /\
  bath <= bhk + 2 /\ (350 <= sqft / inject_Z bhk)%Q.
Proof.
  pose proof int_float_limit_above as Habove.
  destruct (Z.lt_ge_cases bhk int_float_limit) as [Hlim|Hlim];
    [| rewrite (validate_inputs_overflow _ _ _ _ _ Hlim);
       split; [discriminate | intros (_ & _ & _ & Hbhk & _); lia]].
  rewrite (validate_inputs_Return _ _ _ _ _ Hlim). clear Hlim Habove.
  assert (Hnil : forall (c : bool) (m : string) l,
            (if c then [m] else []) ++ l = [] <-> c = false /\ l = []).
  { intros [] m l; simpl; split; try discriminate; intuition congruence. }
  assert (Hlast : forall (c : bool) (m : string),
            (if c then [m] else []) = [] <-> c = false).
  { intros [] m; split; try discriminate; auto. }
  split.
  - intros H. injection H as H.
    rewrite !Hnil, Hlast in H.
    destruct H as (Hbhk & Hbath & Hbalcony & Hsqft & Hpps & Harea & Hrule).
    apply orb_false_iff in Hbhk as [Hb1 Hb2], Hbath as [Ha1 Ha2],
      Hbalcony as [Hc1 Hc2].
    apply Z.ltb_ge in Hb1, Ha1, Hc1.
    rewrite Z.gtb_ltb in Hb2, Ha2, Hc2, Hrule.
    apply Z.ltb_ge in Hb2, Ha2, Hc2, Hrule.
    assert (Hge : (bhk >=? 1) = true) by (apply Z.geb_le; lia).
    rewrite Hge in Harea. simpl in Harea. apply Qltb_ge in Harea.
    repeat split; try lia; try exact Harea.
    + apply Qnot_le_lt. intros Hle. apply Qle_bool_iff in Hle. congruence.
    + apply Qnot_le_lt. intros Hle. apply Qle_bool_iff in Hle. congruence.
  - intros (Hbath & Hbalcony & Hsqft & Hbhk & Hpps & Hrule & Harea).
    f_equal. rewrite !Hnil, Hlast.
    repeat split.
    + apply orb_false_iff. rewrite Z.gtb_ltb, !Z.ltb_ge. lia.
    + apply orb_false_iff. rewrite Z.gtb_ltb, !Z.ltb_ge. lia.
    + apply orb_false_iff. rewrite Z.gtb_ltb, !Z.ltb_ge. lia.
    + destruct (Qle_bool sqft 200) eqn:E; [| reflexivity].
      apply Qle_bool_iff in E. exfalso. exact (Qlt_not_le _ _ Hsqft E).
    + destruct (Qle_bool pps 0) eqn:E; [| reflexivity].
      apply Qle_bool_iff in E. exfalso. exact (Qlt_not_le _ _ Hpps E).
    + apply andb_false_iff. right. apply Qltb_ge. exact Harea.
    + rewrite Z.gtb_ltb, Z.ltb_ge. lia.
Qed.

(** X7. The client's checks and the server's validation accept the same
    inputs: [validate_inputs] returns no issue exactly when
    [PredictRequest(...)] accepts the five values, which is exactly when
    [POST /predict] does not answer 422. *)
Theorem client_and_server_accept_the_same app bhk bath balcony sqft pps log :
  (validate_inputs bhk bath balcony sqft pps = Return [] <->
   PredictRequest_init bath balcony sqft bhk pps
     = Return (Build_PredictRequest bath balcony sqft bhk pps)) /\
  (validate_inputs bhk bath balcony sqft pps = Return [] <->
   status (fst (post_predict app bath balcony sqft bhk pps log)) <> 422).
Proof.
  rewrite validate_inputs_nil_iff, <- PredictRequest_init_accepts_iff.
  split; [reflexivity |].
  unfold post_predict.
  destruct (PredictRequest_init_outcome bath balcony sqft bhk pps)
    as [(_ & _ & E)|[(_ & msg & _ & E)|(_ & E)]]; rewrite E.
  - pose proof (respond_predict_status app
      (Build_PredictRequest bath balcony sqft bhk pps) log) as Hst.
    destruct (predict app _ log) as [outcome log']. simpl in *.
    split; [intros _; lia | reflexivity].
  - simpl. split; [discriminate | intros H; contradiction].
  - simpl. split; [discriminate | intros H; contradiction].
Qed.

Lemma client_and_server_accept_the_same_witness :
  validate_inputs 2 2 1 1000 6000 = Return [].
Proof.
  apply (proj1 (client_and_server_accept_the_same Sample.app 2 2 1 1000%Q 6000%Q [])).
  reflexivity.
Defined.

(** X13. When both cross-field rules are violated by values within the
    field ranges, the server reports the bathroom rule alone, the first one
    [logical_rules] tests, while the client lists both, the area rule
    first. *)
Theorem both_rules_violated bhk bath balcony sqft pps :
  1 <= bath <= 12 -> 0 <= balcony <= 6 -> (200 < sqft)%Q ->
  1 <= bhk <= 12 -> (0 < pps)%Q ->
  bhk + 2 < bath -> (sqft / inject_Z bhk < 350)%Q ->
  PredictRequest_init bath balcony sqft bhk pps =
    Raise (ValidationError
      [value_error "Invalid: bath should typically be ≤ (bhk + 2)."]) /\
  validate_inputs bhk bath balcony sqft pps =
    Return ["Sqft per BHK should be ≥ 350 (data cleaning rule).";
            "Bathrooms should typically be ≤ (BHK + 2)."].
Proof.
  intros Hbath Hbalcony Hsqft Hbhk Hpps Hrule Harea. split.
  - assert (Hfields : field_errors (Build_PredictRequest bath balcony sqft bhk pps) = []).
    { apply field_errors_nil. simpl. tauto. }
    unfold PredictRequest_init. rewrite Hfields.
    assert (Hnz : Server.bhk (Build_PredictRequest bath balcony sqft bhk pps) <> 0)
      by (simpl; lia).
    assert (Hlim : Z.abs (Server.bhk (Build_PredictRequest bath balcony sqft bhk pps))
                   < int_float_limit).
    { pose proof int_float_limit_above. simpl. lia. }
    destruct (logical_rules_cases _ Hnz Hlim) as [[_ ->]|[(Hb & _)|(Hb & _)]];
      simpl in *; [reflexivity | lia | lia].
  - rewrite validate_inputs_Return by (pose proof int_float_limit_above; lia).
    f_equal.
    assert (E1 : (bhk <? 1) || (bhk >? 12) = false).
    { apply orb_false_iff. rewrite Z.gtb_ltb, !Z.ltb_ge. lia. }
    assert (E2 : (bath <? 1) || (bath >? 12) = false).
    { apply orb_false_iff. rewrite Z.gtb_ltb, !Z.ltb_ge. lia. }
    assert (E3 : (balcony <? 0) || (balcony >? 6) = false).
    { apply orb_false_iff. rewrite Z.gtb_ltb, !Z.ltb_ge. lia. }
    assert (E4 : Qle_bool sqft 200 = false).
    { destruct (Qle_bool sqft 200) eqn:E; [| reflexivity].
      apply Qle_bool_iff in E. exfalso. exact (Qlt_not_le _ _ Hsqft E). }
    assert (E5 : Qle_bool pps 0 = false).
    { destruct (Qle_bool pps 0) eqn:E; [| reflexivity].
      apply Qle_bool_iff in E. exfalso. exact (Qlt_not_le _ _ Hpps E). }
    assert (E6 : (bhk >=? 1) && Qltb (sqft / inject_Z bhk) 350 = true).
    { apply andb_true_iff. split; [apply Z.geb_le; lia | apply Qltb_lt; exact Harea]. }
    assert (E7 : (bath >? bhk + 2) = true) by (apply Z.gtb_lt; lia).
    rewrite E1, E2, E3, E4, E5, E6, E7. reflexivity.
Qed.

Lemma both_rules_violated_witness :
  PredictRequest_init 6 1 1000 3 6000 =
    Raise (ValidationError
      [value_error "Invalid: bath should typically be ≤ (bhk + 2)."]) /\
  validate_inputs 3 6 1 1000 6000 =
    Return ["Sqft per BHK should be ≥ 350 (data cleaning rule).";
            "Bathrooms should typically be ≤ (BHK + 2)."].
Proof.
  apply (both_rules_violated 3 6 1 1000%Q 6000%Q); try lia; reflexivity.
Defined.

(** X9. For values the form's number inputs allow, none of the five range
    messages can appear and the server's field constraints hold: the only
    issues are the two cross-field ones. *)
Theorem form_values_only_cross_field_issues bhk bath balcony sqft pps :
  form_allows bhk bath balcony sqft pps = true ->
  field_errors (Build_PredictRequest bath balcony sqft bhk pps) = [] /\
  validate_inputs bhk bath balcony sqft pps =
    Return
      ((if Qltb (sqft / inject_Z bhk) 350
        then ["Sqft per BHK should be ≥ 350 (data cleaning rule)."] else []) ++
       (if bath >? bhk + 2
        then ["Bathrooms should typically be ≤ (BHK + 2)."] else [])).
Proof.
  unfold form_allows. rewrite !andb_true_iff, !Z.leb_le, !Qle_bool_iff.
  intros (((((((Hb1 & Hb2) & Ha1) & Ha2) & Hc1) & Hc2) & Hsqft) & Hpps).
  assert (Hsqft' : (200 < sqft)%Q) by lra.
  assert (Hpps' : (0 < pps)%Q) by lra.
  split.
  - apply field_errors_nil. simpl. repeat split; try lia; assumption.
  - rewrite validate_inputs_Return by (pose proof int_float_limit_above; lia).
    f_equal.
    assert (E1 : ((bhk <? 1) || (bhk >? 12)) = false).
    { apply orb_false_iff. rewrite Z.gtb_ltb, !Z.ltb_ge. lia. }
    assert (E2 : ((bath <? 1) || (bath >? 12)) = false).
    { apply orb_false_iff. rewrite Z.gtb_ltb, !Z.ltb_ge. lia. }
    assert (E3 : ((balcony <? 0) || (balcony >? 6)) = false).
    { apply orb_false_iff. rewrite Z.gtb_ltb, !Z.ltb_ge. lia. }
    assert (E4 : Qle_bool sqft 200 = false).
    { destruct (Qle_bool sqft 200) eqn:E; [| reflexivity].
      apply Qle_bool_iff in E. exfalso. exact (Qlt_not_le _ _ Hsqft' E). }
    assert (E5 : Qle_bool pps 0 = false).
    { destruct (Qle_bool pps 0) eqn:E; [| reflexivity].
      apply Qle_bool_iff in E. exfalso. exact (Qlt_not_le _ _ Hpps' E). }
    assert (E6 : (bhk >=? 1) = true) by (apply Z.geb_le; lia).
    rewrite E1, E2, E3, E4, E5, E6. reflexivity.
Qed.

Lemma form_values_only_cross_field_issues_witness :
  validate_inputs 3 2 1 1000 6000 =
    Return ["Sqft per BHK should be ≥ 350 (data cleaning rule)."].
Proof.
  exact (proj2 (form_values_only_cross_field_issues 3 2 1 1000%Q 6000%Q eq_refl)).
Defined.

(** X8. A click on either button, for any values and any backend, ends
    in one of four ways.  If [bhk] does not convert to a float the script
    fails in [validate_inputs] before the buttons.  With issues both
    buttons stop after the hints and nothing is sent.  Without issues the
    server accepts the request: an unreachable backend shows the connection
    error; otherwise a returned prediction is shown, by the POST button
    with progress bar, caption and chart and by the GET button with price
    and details only, and a failed prediction shows the API error 400 on
    both.  A 422 or a 500 is never shown, and both buttons cause the same
    predictor calls. *)
Theorem click_outcomes backend bhk bath balcony sqft pps log :
  let post := click_post backend bhk bath balcony sqft pps log in
  let get := click_get backend bhk bath balcony sqft pps log in
  let req := Build_PredictRequest bath balcony sqft bhk pps in
  (int_float_limit <= bhk /\
   post = (Crashed (OverflowError "int too large to convert to float"), log) /\
   get = post) \/
  (exists issue issues,
     validate_inputs bhk bath balcony sqft pps = Return (issue :: issues) /\
     post = (Stopped (hints (issue :: issues)), log) /\
     get = post) \/
  (validate_inputs bhk bath balcony sqft pps = Return [] /\
   backend = None /\
   post = (Rendered [st_error_connection RequestException], log) /\
   get = post) \/
  (validate_inputs bhk bath balcony sqft pps = Return [] /\
   exists app, backend = Some app /\
     ((exists data log',
         predict app req log = (Return data, log') /\
         post = (Rendered [st_success (predicted_price_lakhs data);
                           st_progress 100;
                           st_json data;
                           st_caption "Quick glance:";
                           st_bar_chart sqft (predicted_price_lakhs data)], log') /\
         get = (Rendered [st_success (predicted_price_lakhs data); st_json data], log')) \/
      (exists e log',
         predict app req log = (Raise (failed e), log') /\
         post = (Rendered [st_error_api 400
                             (HTTPError 400 (String.append "Prediction failed: " (str e)))],
                 log') /\
         get = post))).
Proof.
  intros post get req. subst post get. unfold click_post, click_get.
  destruct (Z.lt_ge_cases bhk int_float_limit) as [Hlim|Hlim];
    [| left; rewrite (validate_inputs_overflow _ _ _ _ _ Hlim); auto].
  right.
  destruct (validate_inputs bhk bath balcony sqft pps) as [issues|e] eqn:Ev;
    [| rewrite (validate_inputs_Return _ _ _ _ _ Hlim) in Ev; discriminate].
  destruct issues as [|issue issues]; [| left; exists issue, issues; auto].
  right.
  assert (Hreq : PredictRequest_init bath balcony sqft bhk pps = Return req).
  { apply PredictRequest_init_accepts_iff, validate_inputs_nil_iff. exact Ev. }
  destruct backend as [app|]; [right | left; auto].
  split; [reflexivity |]. exists app. split; [reflexivity |].
  assert (Hget : get_predict app bhk
                   (Build_QueryParams (Some bath) (Some balcony) (Some sqft) (Some pps)) log
                 = post_predict app bath balcony sqft bhk pps log).
  { exact (get_predict_delegates app bhk
             (Build_QueryParams (Some bath) (Some balcony) (Some sqft) (Some pps))
             log req Hreq). }
  unfold post_button, get_button, predict_post, predict_get.
  rewrite Hget. unfold post_predict. rewrite Hreq.
  destruct (predict_returns_or_fails app req log) as [[data Hout]|[e Hout]];
    destruct (predict app req log) as [outcome log'] eqn:Ep;
    simpl in Hout; subst outcome; simpl.
  - left. exists data, log'. auto.
  - right. exists e, log'. auto.
Qed.

Lemma click_outcomes_witness :
  click_post (Some Sample.app) 3 2 1 1000 6000 []
  = (Stopped (hints ["Sqft per BHK should be ≥ 350 (data cleaning rule)."]), []).
Proof.
  destruct (click_outcomes (Some Sample.app) 3 2 1 1000%Q 6000%Q [])
    as [(Hlim & _)|[(issue & issues & Hissues & Hpost & _)
       |[(Hnone & _)|(Hnone & _)]]].
  - exfalso. revert Hlim. vm_compute. intros H. apply H. reflexivity.
  - rewrite Hpost. injection Hissues as <- <-. reflexivity.
  - discriminate Hnone.
  - discriminate Hnone.
Defined.

(** ** What a successful response holds *)

(** A returned response, read back: the row built from the request, the
    model's answer on it, and the fields of the response. *)
Lemma predict_Return app req log resp log' :
  predict app req log = (Return resp, log') ->
  exists x ys y,
    make_feature_vector app req = Return [x] /\
    length x = length (FEATURE_ORDER app) /\
    model_predict (MODEL app) [x] = Return ys /\
    ys !! 0%nat = Some y /\
    resp = {| predicted_price_lakhs := round2 y;
              feature_order := FEATURE_ORDER app;
              features_used := x |} /\
    log' = log ++ [[x]].
Proof.
  rewrite predict_run. intros H.
  destruct (make_feature_vector app req) as [rows|e] eqn:Ev; [| discriminate].
  destruct (make_feature_vector_Return _ _ _ Ev) as (x & -> & Hcols).
  destruct (model_predict (MODEL app) [x]) as [ys|e] eqn:Ey; [| discriminate].
  unfold index in H.
  destruct (nth_error ys 0) as [y|] eqn:Ei; [| discriminate].
  simpl in H. injection H as <- <-.
  exists x, ys, y. repeat split; auto.
  - symmetry. exact (Forall2_length _ _ _ Hcols).
  - destruct ys; [discriminate | exact Ei].
Qed.

(** A 200 of either route is a returned response of [predict] on the
    validated request. *)
Lemma post_predict_Ok200 app bath balcony total bhk pps log content log' :
  post_predict app bath balcony total bhk pps log = (Ok200 content, log') ->
  PredictRequest_init bath balcony total bhk pps
    = Return (Build_PredictRequest bath balcony total bhk pps) /\
  predict app (Build_PredictRequest bath balcony total bhk pps) log
    = (Return content, log').
Proof.
  unfold post_predict.
  destruct (PredictRequest_init_outcome bath balcony total bhk pps)
    as [(_ & _ & E)|[(_ & msg & _ & E)|(_ & E)]]; rewrite E; try discriminate.
  destruct (predict app _ log) as [[resp|e] l]; simpl.
  - intros H. injection H as <- <-. auto.
  - destruct e; discriminate.
Qed.

Lemma get_predict_Ok200 app bhk query log content log' :
  get_predict app bhk query log = (Ok200 content, log') ->
  post_predict app (default 2 (q_bath query)) (default 1 (q_balcony query))
    (default 1000%Q (q_total_sqft_int query)) bhk
    (default 6000%Q (q_price_per_sqft query)) log = (Ok200 content, log').
Proof.
  intros H. rewrite <- H. symmetry.
  rewrite get_predict_run in H. cbv zeta in H.
  destruct (_ ++ _); [| discriminate].
  destruct (PredictRequest_init _ _ _ _ _) as [req|e] eqn:E.
  - exact (get_predict_delegates app bhk query log req E).
  - destruct e; discriminate.
Qed.

(** X10. The column order that [GET /] and [GET /model/info] report is the
    one every successful prediction echoes, on either route, and
    [features_used] has one value per reported column. *)
Theorem reported_order_is_the_one_used app bhk query log content log' :
  get_predict app bhk query log = (Ok200 content, log') \/
  post_predict app (default 2 (q_bath query)) (default 1 (q_balcony query))
    (default 1000%Q (q_total_sqft_int query)) bhk
    (default 6000%Q (q_price_per_sqft query)) log = (Ok200 content, log') ->
  get_root app = Ok200 (root app) /\
  get_model_info app = Ok200 (model_info app) /\
  feature_order content = model_features (root app) /\
  feature_order content = info_feature_order (model_info app) /\
  length (features_used content) = length (info_feature_order (model_info app)).
Proof.
  intros H.
  assert (Hpost : post_predict app (default 2 (q_bath query)) (default 1 (q_balcony query))
                    (default 1000%Q (q_total_sqft_int query)) bhk
                    (default 6000%Q (q_price_per_sqft query)) log = (Ok200 content, log')).
  { destruct H as [H|H]; [apply get_predict_Ok200 |]; exact H. }
  destruct (post_predict_Ok200 _ _ _ _ _ _ _ _ _ Hpost) as [_ Hrun].
  destruct (predict_Return _ _ _ _ _ Hrun) as (x & ys & y & _ & Hlen & _ & _ & -> & _).
  simpl. auto.
Qed.

Lemma reported_order_is_the_one_used_witness :
  feature_order
    {| predicted_price_lakhs := round2 (202805 # 100);
       feature_order := FEATURE_ORDER Sample.app;
       features_used := [2; 2; 1; 1000; 6000]%Q |}
  = info_feature_order (model_info Sample.app).
Proof.
  eapply (reported_order_is_the_one_used Sample.app 2 no_query []).
  right. vm_compute. reflexivity.
Defined.

(** ** The two 422s *)

(** An error entry without the request part it is reported under. *)
Lemma check_ge_le_under part part' field lo hi v :
  map (fun e => (err_type e, drop 1 (err_loc e), err_msg e))
      (map (under part) (check_ge_le [field] lo hi v))
  = map (fun e => (err_type e, drop 1 (err_loc e), err_msg e))
      (check_ge_le [part'; field] lo hi v).
Proof.
  unfold check_ge_le. destruct (v <? lo); [reflexivity |].
  destruct (hi <? v); reflexivity.
Qed.

Lemma check_gt_under part part' field bound v :
  map (fun e => (err_type e, drop 1 (err_loc e), err_msg e))
      (map (under part) (check_gt [field] bound v))
  = map (fun e => (err_type e, drop 1 (err_loc e), err_msg e))
      (check_gt [part'; field] bound v).
Proof. unfold check_gt. destruct (Qgtb _ _); reflexivity. Qed.

(** X12. When a range constraint is violated, both routes answer 422
    without calling the predictor, and the two error lists have the same
    entries (type, field and message), the path parameter [bhk] coming
    first on [GET /predict/{bhk}] and fourth on [POST /predict]. *)
Theorem range_violations_reported_alike app bath balcony total bhk pps log :
  ~ (1 <= bath <= 12 /\ 0 <= balcony <= 6 /\ (200 < total)%Q /\
     1 <= bhk <= 12 /\ (0 < pps)%Q) ->
  exists from_get from_post,
    get_predict app bhk
      (Build_QueryParams (Some bath) (Some balcony) (Some total) (Some pps)) log
      = (Unprocessable422 from_get, log) /\
    post_predict app bath balcony total bhk pps log
      = (Unprocessable422 from_post, log) /\
    map (fun e => (err_type e, drop 1 (err_loc e), err_msg e)) from_get
      ≡ₚ map (fun e => (err_type e, drop 1 (err_loc e), err_msg e)) from_post.
Proof.
  intros Hout.
  pose proof (field_errors_nil (Build_PredictRequest bath balcony total bhk pps)) as Hf.
  pose proof (path_query_checks_nil bath balcony total bhk pps) as Hpq.
  simpl in Hf.
  destruct (PredictRequest_init_outcome bath balcony total bhk pps)
    as [(Hfe & _)|[(Hfe & _)|(Hne & E)]]; [tauto | tauto |].
  eexists _, _. split; [| split].
  - unfold get_predict. simpl default.
    destruct (_ ++ _) as [|e errors] eqn:El; [exfalso; apply Hne, Hpq; reflexivity |].
    rewrite <- El. reflexivity.
  - unfold post_predict. rewrite E. reflexivity.
  - unfold field_errors. simpl.
    rewrite !map_app.
    rewrite (check_ge_le_under "body" "query" "bath"),
            (check_ge_le_under "body" "query" "balcony"),
            (check_gt_under "body" "query" "total_sqft_int"),
            (check_ge_le_under "body" "path" "bhk"),
            (check_gt_under "body" "query" "price_per_sqft").
    set (key := fun e => (err_type e, drop 1 (err_loc e), err_msg e)).
    generalize (map key (check_ge_le ["path"; "bhk"] 1 12 bhk)),
               (map key (check_ge_le ["query"; "bath"] 1 12 bath)),
               (map key (check_ge_le ["query"; "balcony"] 0 6 balcony)),
               (map key (check_gt ["query"; "total_sqft_int"] 200 total)),
               (map key (check_gt ["query"; "price_per_sqft"] 0 pps)).
    intros D A B C E'.
    rewrite !(assoc_L (++)). apply Permutation_app_tail.
    rewrite <- !(assoc_L (++)).
    etransitivity; [apply (Permutation_app_comm D (A ++ B ++ C)) |].
    rewrite <- !(assoc_L (++)). reflexivity.
Qed.

Lemma range_violations_reported_alike_witness :
  exists from_get from_post,
    get_predict Sample.app 13
      (Build_QueryParams (Some 2) (Some 9) (Some 1000%Q) (Some 6000%Q)) []
      = (Unprocessable422 from_get, []) /\
    post_predict Sample.app 2 9 1000 13 6000 [] = (Unprocessable422 from_post, []) /\
    length from_get = length from_post.
Proof.
  destruct (range_violations_reported_alike Sample.app 2 9 1000%Q 13 6000%Q [])
    as (from_get & from_post & Hget & Hpost & Hperm).
  - intros (_ & Hbalcony & _). lia.
  - exists from_get, from_post. split; [exact Hget |]. split; [exact Hpost |].
    apply Permutation_length in Hperm. rewrite !length_map in Hperm. exact Hperm.
Defined.

(** ** The default column order *)

(** X14. A server started from an artifact that stores no column order
    sends the predictor, for every request, the five fields in the order
    bath, balcony, total_sqft_int, bhk, price_per_sqft. *)
Theorem default_order_vector payload app req :
  startup (Some payload) = Return app ->
  payload_feature_order payload = None ->
  make_feature_vector app req =
    Return [[inject_Z (bath req); inject_Z (balcony req); total_sqft_int req;
             inject_Z (bhk req); price_per_sqft req]].
Proof.
  unfold startup. intros Hstart Hnone. rewrite Hnone in Hstart.
  destruct (payload_model payload) as [m|]; [| discriminate].
  injection Hstart as <-. reflexivity.
Qed.

Lemma default_order_vector_witness :
  make_feature_vector Sample.app_without_order (Build_PredictRequest 2 1 1000 3 6000)
  = Return [[2; 1; 1000; 3; 6000]%Q].
Proof.
  exact (default_order_vector Sample.artifact_without_order Sample.app_without_order
           (Build_PredictRequest 2 1 1000 3 6000) eq_refl eq_refl).
Defined.

(** ** The health check *)

(** [GET /] always answers 200, so the banner of the client shows a
    connection for every backend that is reached, and never the warning. *)
Lemma health_check_banner backend :
  health_check backend = match backend with
                         | Some _ => Connected
                         | None => Unreachable
                         end.
Proof. destruct backend; reflexivity. Qed.
